(** * Package.ts of the private extension manager, embedded in Rocq

    The development follows [src/extension/src/Package.ts]: the values a
    package manifest is made of, the [SemVer] objects of the semver package,
    the [Package] class with its constructor, its refreshable snapshot and its
    getters, and the host-kind classification [isUiExtension]. *)

From Stdlib Require Import String Ascii List ZArith NArith Bool Lia DecimalString.
Import ListNotations.
Local Open Scope list_scope.
Local Open Scope string_scope.

(** ** JavaScript values and the operators the source applies to them *)
Module Js.

(** A manifest is parsed JSON: [Record<string, unknown>].  Objects keep their
    properties in the order [Object.keys] lists them.  Numbers are integers
    here; the source only ever tests a number for truthiness. *)
#[warnings="-register-all"]
Inductive Value : Type :=
| VUndefined
| VNull
| VBool (b : bool)
| VNumber (n : Z)
| VString (s : string)
| VArray (elems : list Value)
| VObject (props : list (string * Value)).

(** [o[k]] on the own properties of an object, [None] when [k] is no key. *)
Fixpoint assoc {A : Type} (k : string) (o : list (string * A)) : option A :=
  match o with
  | [] => None
  | (k', v) :: o' => if String.eqb k' k then Some v else assoc k o'
  end.

(** [Object.keys(o)]. *)
Definition keys {A : Type} (o : list (string * A)) : list string :=
  map fst o.

(** [manifest.k]: reading a property that is absent gives [undefined]. *)
Definition get (o : list (string * Value)) (k : string) : Value :=
  match assoc k o with
  | Some v => v
  | None => VUndefined
  end.

(** [typeof v]. *)
Definition typeof (v : Value) : string :=
  match v with
  | VUndefined => "undefined"
  | VNull => "object"
  | VBool _ => "boolean"
  | VNumber _ => "number"
  | VString _ => "string"
  | VArray _ => "object"
  | VObject _ => "object"
  end.

(** [v === null]. *)
Definition is_null (v : Value) : bool :=
  match v with
  | VNull => true
  | _ => false
  end.

(** The decimal spelling of an array index. *)
Definition index_name (i : nat) : string :=
  NilZero.string_of_uint (Nat.to_uint i).

(** [k in v] for a key that is not a member of [Object.prototype] or
    [Array.prototype]: an object has its own keys, an array its indices and
    [length].  (On a primitive the operator throws; the source guards it with
    the [typeof] test, and the model answers [false] there.) *)
Definition has_property (k : string) (v : Value) : bool :=
  match v with
  | VObject props => existsb (String.eqb k) (keys props)
  | VArray elems =>
      String.eqb k "length"
      || existsb (fun i => String.eqb k (index_name i)) (seq 0 (List.length elems))
  | _ => false
  end.

(** Truthiness of a string: every string but the empty one. *)
Definition truthy_string (s : string) : bool :=
  negb (String.eqb s "").

(** [ToBoolean(v)], the test of [if (v)] and of [!v]. *)
Definition truthy (v : Value) : bool :=
  match v with
  | VUndefined => false
  | VNull => false
  | VBool b => b
  | VNumber n => negb (Z.eqb n 0)
  | VString s => truthy_string s
  | VArray _ => true
  | VObject _ => true
  end.

(** Truthiness of a [string | undefined] or [string | null] field. *)
Definition truthy_opt (o : option string) : bool :=
  match o with
  | Some s => truthy_string s
  | None => false
  end.

(** *** Letter case

    A string holds the UTF-8 text of the JavaScript string.  The case
    conversions follow [String.prototype.toLowerCase] and [toUpperCase] on
    the ASCII characters and on the Greek sigma, the one letter whose
    lower-casing depends on its place in the word; every other character is
    left as it is. *)

(** The code unit with number [n]. *)
Definition byte_is (n : nat) (c : ascii) : bool :=
  (nat_of_ascii c =? n)%nat.

(** Lower-casing of one ASCII character: [A]-[Z] become [a]-[z]. *)
Definition lower_ascii (c : ascii) : ascii :=
  let n := nat_of_ascii c in
  if (65 <=? n)%nat && (n <=? 90)%nat then ascii_of_nat (n + 32) else c.

(** Lower-casing of a text of ASCII characters, character by character. *)
Fixpoint lower_letters (s : string) : string :=
  match s with
  | EmptyString => EmptyString
  | String c r => String (lower_ascii c) (lower_letters r)
  end.

(** The cased ASCII characters: the letters. *)
Definition ascii_letter (c : ascii) : bool :=
  let n := nat_of_ascii c in
  ((65 <=? n)%nat && (n <=? 90)%nat) || ((97 <=? n)%nat && (n <=? 122)%nat).

(** The case-ignorable ASCII characters: apostrophe, full stop, colon,
    circumflex and grave accent. *)
Definition case_ignorable (c : ascii) : bool :=
  byte_is 39 c || byte_is 46 c || byte_is 58 c || byte_is 94 c || byte_is 96 c.

(** U+03A3 GREEK CAPITAL LETTER SIGMA is the bytes CE A3. *)
Definition capital_sigma_at (c d : ascii) : bool :=
  byte_is 206 c && byte_is 163 d.

(** U+03C2 GREEK SMALL LETTER FINAL SIGMA is CF 82 and U+03C3 GREEK SMALL
    LETTER SIGMA is CF 83. *)
Definition small_sigma_at (c d : ascii) : bool :=
  byte_is 207 c && (byte_is 130 d || byte_is 131 d).

(** Is the text a run of case-ignorable characters followed by a cased
    letter? *)
Fixpoint cased_follows (s : string) : bool :=
  match s with
  | EmptyString => false
  | String c r =>
      if ascii_letter c then true
      else if case_ignorable c then cased_follows r
      else
        match r with
        | String d _ => capital_sigma_at c d || small_sigma_at c d
        | EmptyString => false
        end
  end.

(** Whether a cased letter, followed by case-ignorable characters only, has
    been read once [c] is read. *)
Definition context_after (after_cased : bool) (c : ascii) : bool :=
  if ascii_letter c then true
  else if case_ignorable c then after_cased
  else false.

(** Lower-casing from left to right.  A capital sigma becomes the final
    sigma when a cased letter and then case-ignorable characters come before
    it and no run of case-ignorable characters and then a cased letter comes
    after it (the [Final_Sigma] condition); it becomes the small sigma
    otherwise. *)
Fixpoint lower_from (after_cased : bool) (s : string) : string :=
  match s with
  | EmptyString => EmptyString
  | String c r =>
      let plain :=
        String (lower_ascii c) (lower_from (context_after after_cased c) r) in
      if byte_is 206 c || byte_is 207 c then
        match r with
        | String d r' =>
            if capital_sigma_at c d then
              String (ascii_of_nat 207)
                (String
                   (ascii_of_nat
                      (if after_cased && negb (cased_follows r') then 130 else 131))
                   (lower_from true r'))
            else if small_sigma_at c d then
              String c (String d (lower_from true r'))
            else plain
        | EmptyString => plain
        end
      else plain
  end.

(** [s.toLowerCase()]. *)
Definition toLowerCase (s : string) : string :=
  lower_from false s.

(** [s.endsWith(suffix)]: the last [suffix.length] code units of [s] are
    [suffix]. *)
Definition endsWith (s suffix : string) : bool :=
  let len := String.length s in
  let n := String.length suffix in
  (n <=? len)%nat && String.eqb (substring (len - n) n s) suffix.

(** [a > b] on two strings: code units are compared left to right.  On UTF-8
    text the order of the bytes is the order of the code units for the
    characters below U+D800. *)
Definition string_gt (a b : string) : bool :=
  String.ltb b a.

(** [a < b] on two strings. *)
Definition string_lt (a b : string) : bool :=
  String.ltb a b.

(** Upper-casing of one ASCII character: [a]-[z] become [A]-[Z]. *)
Definition upper_ascii (c : ascii) : ascii :=
  let n := nat_of_ascii c in
  if (97 <=? n)%nat && (n <=? 122)%nat then ascii_of_nat (n - 32) else c.

(** Upper-casing of a text of ASCII characters, character by character. *)
Fixpoint upper_letters (s : string) : string :=
  match s with
  | EmptyString => EmptyString
  | String c r => String (upper_ascii c) (upper_letters r)
  end.

(** [s.toUpperCase()]: both small sigmas become the capital sigma. *)
Fixpoint toUpperCase (s : string) : string :=
  match s with
  | EmptyString => EmptyString
  | String c r =>
      let plain := String (upper_ascii c) (toUpperCase r) in
      if byte_is 207 c then
        match r with
        | String d r' =>
            if small_sigma_at c d then
              String (ascii_of_nat 206) (String (ascii_of_nat 163) (toUpperCase r'))
            else plain
        | EmptyString => plain
        end
      else plain
  end.

End Js.

(** ** The [SemVer] class of the semver package *)
Module Semver.

(** A pre-release identifier is kept as a number when it is all digits. *)
Inductive Identifier : Type :=
| IdNum (n : N)
| IdStr (s : string).

Record SemVer : Type := mkSemVer {
  major : N;
  minor : N;
  patch : N;
  prerelease : list Identifier;
  build : list string
}.

Definition decimal (n : N) : string :=
  NilZero.string_of_uint (N.to_uint n).

Definition identifier_to_string (i : Identifier) : string :=
  match i with
  | IdNum n => decimal n
  | IdStr s => s
  end.

(** [format()]: the canonical spelling [major.minor.patch[-prerelease]] kept
    in the [version] field of the object; build metadata is left out. *)
Definition format (v : SemVer) : string :=
  let main := decimal (major v) ++ "." ++ decimal (minor v) ++ "." ++ decimal (patch v) in
  match prerelease v with
  | [] => main
  | pre => main ++ "-" ++ String.concat "." (map identifier_to_string pre)
  end.

(** [toString()] returns the [version] field. *)
Definition toString (v : SemVer) : string := format v.

(** [a > b] on two [SemVer] objects.  The class defines [toString] and neither
    [valueOf] nor [Symbol.toPrimitive], so the relational operator converts
    both operands to their strings and compares those. *)
Definition gt_operator (a b : SemVer) : bool :=
  Js.string_gt (toString a) (toString b).

(** [new SemVer('0.0.0')]. *)
Definition zero : SemVer :=
  {| major := 0; minor := 0; patch := 0; prerelease := []; build := [] |}.

(** *** Semantic-version precedence

    The order the specification means by "strictly greater": major, then
    minor, then patch, then the pre-release identifiers; build metadata does
    not take part. *)
Definition compare_identifiers (a b : Identifier) : comparison :=
  match a, b with
  | IdNum x, IdNum y => N.compare x y
  | IdNum _, IdStr _ => Lt
  | IdStr _, IdNum _ => Gt
  | IdStr x, IdStr y => String.compare x y
  end.

Fixpoint compare_identifier_lists (a b : list Identifier) : comparison :=
  match a, b with
  | [], [] => Eq
  | [], _ :: _ => Lt
  | _ :: _, [] => Gt
  | x :: a', y :: b' =>
      match compare_identifiers x y with
      | Eq => compare_identifier_lists a' b'
      | c => c
      end
  end.

Definition compare_pre (a b : SemVer) : comparison :=
  match prerelease a, prerelease b with
  | [], [] => Eq
  | [], _ :: _ => Gt
  | _ :: _, [] => Lt
  | pa, pb => compare_identifier_lists pa pb
  end.

Definition compare_main (a b : SemVer) : comparison :=
  match N.compare (major a) (major b) with
  | Eq =>
      match N.compare (minor a) (minor b) with
      | Eq => N.compare (patch a) (patch b)
      | c => c
      end
  | c => c
  end.

Definition compare (a b : SemVer) : comparison :=
  match compare_main a b with
  | Eq => compare_pre a b
  | c => c
  end.

(** [a] has strictly higher precedence than [b]. *)
Definition newer (a b : SemVer) : bool :=
  match compare a b with
  | Gt => true
  | _ => false
  end.

End Semver.

Import Js Semver.

(** ** What the source reads from the editor host and from sibling modules *)

(** [vscode.ExtensionKind]. *)
Inductive ExtensionKind : Type :=
| UI
| Workspace.

Definition ExtensionKind_eqb (a b : ExtensionKind) : bool :=
  match a, b with
  | UI, UI => true
  | Workspace, Workspace => true
  | _, _ => false
  end.

(** The ambient host state [isUiExtension] reads: [vscode.env.remoteName]
    ([None] for [undefined]) and the [remote.extensionKind] setting, a
    [Record<string, string>] that defaults to the empty object. *)
Record Host : Type := mkHost {
  remoteName : option string;
  remoteExtensionKind : list (string * string)
}.

(** Modelled from the spec: the result of the installed-extension lookup
    [getExtension] of [./extensionInfo], "{ hostKind, version }".  Each field
    has the type of the [Package] field [updateState] stores it in. *)
Module ExtensionInfo.
Record t : Type := mk {
  extensionKind : option ExtensionKind;
  version : option SemVer
}.
End ExtensionInfo.

(** Modelled from the spec: [isNonEmptyArray] of [./util], a
    "presence-of-nonempty-sequence" check under which "zero-length sequences
    must be treated as absent". *)
Definition isNonEmptyArray (v : Value) : bool :=
  match v with
  | VArray (_ :: _) => true
  | _ => false
  end.

(** A manifest is the own properties of the [package.json] object. *)
Definition Manifest : Type := list (string * Value).

(** ** The free functions of the file *)

(** The loop of [findVsixFile] over [manifest.files]. *)
Fixpoint first_vsix (files : list Value) : option string :=
  match files with
  | [] => None
  | file :: rest =>
      match file with
      | VString s => if endsWith s ".vsix" then Some s else first_vsix rest
      | _ => first_vsix rest
      end
  end.

(** [Array.isArray(manifest.files)] guards the loop; [null] is [None]. *)
Definition findVsixFile (manifest : Manifest) : option string :=
  match get manifest "files" with
  | VArray files => first_vsix files
  | _ => None
  end.

(** The [remote.extensionKind] setting overrides the manifest: the first key
    of the setting whose lower-casing is [extensionId] decides. *)
Definition getExtensionKind (host : Host) (extensionId : string) (manifest : Manifest)
  : option string :=
  let config := remoteExtensionKind host in
  match find (fun id => String.eqb (toLowerCase id) extensionId) (keys config) with
  | Some id => assoc id config
  | None =>
      match get manifest "extensionKind" with
      | VString kind => Some kind
      | _ => None
      end
  end.

(** The [default] branch of the [switch] in [isUiExtension]. *)
Definition ui_by_heuristics (manifest : Manifest) : bool :=
  if truthy (get manifest "main") then false
  else if isNonEmptyArray (get manifest "extensionDependencies")
          || isNonEmptyArray (get manifest "extensionPack") then false
  else true.

Definition isUiExtension (host : Host) (extensionId : string) (manifest : Manifest) : bool :=
  match remoteName host with
  | None => true
  | Some _ =>
      match getExtensionKind host extensionId manifest with
      | Some kind =>
          if String.eqb kind "ui" then true
          else if String.eqb kind "workspace" then false
          else ui_by_heuristics manifest
      | None => ui_by_heuristics manifest
      end
  end.

(** ** Locations of the downloaded files *)

(** A [vscode.Uri] made by [Uri.file(path)]. *)
Record Uri : Type := Uri_file { fsPath : string }.

Definition README_GLOB : string := "README?(.*)".
Definition CHANGELOG_GLOB : string := "CHANGELOG?(.*)".

Section Files.

(** [path.join]. *)
Variable join : string -> string -> string.

(** What [await glob(pattern, { cwd, nocase: true })] resolved to. *)
Variable glob : string -> string -> list string.

Definition uriJoin (directory : Uri) (file : string) : Uri :=
  Uri_file (join (fsPath directory) file).

(** The first file the pattern finds in the directory, or [null]. *)
Definition findFile (directory : Uri) (pattern : string) : option Uri :=
  match glob pattern (fsPath directory) with
  | first :: _ => Some (Uri_file (join (fsPath directory) first))
  | [] => None
  end.

End Files.

(** ** The [Package] class *)

Inductive PackageState : Type :=
| Available
| Installed
| InstalledRemote
| UpdateAvailable
| Invalid.

(** What the constructor throws. *)
Inductive ConstructionError : Type :=
| NotAnExtensionError (message : string)
| TypeError (message : string).

Definition double_quote : string := String (ascii_of_nat 34) EmptyString.

Module Package.
Section Class.

Context {Registry : Type}.

(** [parse] of the semver package; [None] is its [null]. *)
Variable parseVersion : string -> option SemVer.

(** [localize(key, defaultMessage)] of the message bundle. *)
Variable localize : string -> string -> string.

Record t : Type := mk {
  name : string;
  extensionId : string;
  displayName : string;
  description : string;
  version : SemVer;
  registry : Registry;
  vsixFile : option string;
  _publisher : option string;
  _isInstalled : bool;
  _isUiExtension : bool;
  _installedVersion : option SemVer;
  _installedExtensionKind : option ExtensionKind
}.

(** [this._publisher ?? localize('publisher.unknown', 'Unknown')]. *)
Definition publisher_or_unknown (_publisher : option string) : string :=
  match _publisher with
  | Some p => p
  | None => localize "publisher.unknown" "Unknown"
  end.

(** The test that opens the constructor. *)
Definition not_an_extension (manifest : Manifest) : bool :=
  let engines := get manifest "engines" in
  negb (String.eqb (typeof engines) "object")
  || is_null engines
  || negb (has_property "vscode" engines).

(** [typeof v === 'string'], with the string it narrows to. *)
Definition as_string (v : Value) : option string :=
  match v with
  | VString s => Some s
  | _ => None
  end.

(** [new Package(registry, manifest)]. *)
Definition new (host : Host) (registry : Registry) (manifest : Manifest)
  : ConstructionError + t :=
  if not_an_extension manifest then
    inl (NotAnExtensionError "Package is not an extension")
  else
    match as_string (get manifest "name") with
    | None => inl (TypeError "Package name is mising")
    | Some name =>
        let displayName :=
          match as_string (get manifest "displayName") with
          | Some s => s
          | None => name
          end in
        let _publisher := as_string (get manifest "publisher") in
        let description :=
          match as_string (get manifest "description") with
          | Some s => s
          | None => name
          end in
        let version :=
          match as_string (get manifest "version") with
          | Some s =>
              match parseVersion s with
              | Some v => v
              | None => Semver.zero
              end
          | None => Semver.zero
          end in
        let extensionId :=
          toLowerCase (publisher_or_unknown _publisher ++ "." ++ name) in
        inr {| name := name;
               extensionId := extensionId;
               displayName := displayName;
               description := description;
               version := version;
               registry := registry;
               vsixFile := findVsixFile manifest;
               _publisher := _publisher;
               _isInstalled := false;
               _isUiExtension := isUiExtension host extensionId manifest;
               _installedVersion := None;
               _installedExtensionKind := None |}
    end.

(** [updateState()], given what [await getExtension(this.extensionId)]
    resolved to. *)
Definition updateState (p : t) (extension : option ExtensionInfo.t) : t :=
  match extension with
  | Some e =>
      {| name := name p;
         extensionId := extensionId p;
         displayName := displayName p;
         description := description p;
         version := version p;
         registry := registry p;
         vsixFile := vsixFile p;
         _publisher := _publisher p;
         _isInstalled := true;
         _isUiExtension := _isUiExtension p;
         _installedVersion := ExtensionInfo.version e;
         _installedExtensionKind := ExtensionInfo.extensionKind e |}
  | None =>
      {| name := name p;
         extensionId := extensionId p;
         displayName := displayName p;
         description := description p;
         version := version p;
         registry := registry p;
         vsixFile := vsixFile p;
         _publisher := _publisher p;
         _isInstalled := false;
         _isUiExtension := _isUiExtension p;
         _installedVersion := None;
         _installedExtensionKind := None |}
  end.

Definition publisher (p : t) : string := publisher_or_unknown (_publisher p).

Definition spec (p : t) : string := name p ++ "@" ++ Semver.toString (version p).

Definition isInstalled (p : t) : bool := _isInstalled p.

Definition installedVersion (p : t) : option SemVer := _installedVersion p.

(** The getter: the live kind when one is recorded, the hint otherwise. *)
Definition isUiExtension (p : t) : bool :=
  match _installedExtensionKind p with
  | Some kind => ExtensionKind_eqb kind UI
  | None => _isUiExtension p
  end.

(** [!!this.installedVersion && this.version > this.installedVersion]. *)
Definition isUpdateAvailable (p : t) : bool :=
  match installedVersion p with
  | Some installed => Semver.gt_operator (version p) installed
  | None => false
  end.

Definition state (p : t) : PackageState :=
  if truthy_opt (_publisher p) && truthy_opt (vsixFile p) then
    if isUpdateAvailable p then UpdateAvailable
    else if isInstalled p then
      if isUiExtension p then Installed else InstalledRemote
    else Available
  else Invalid.

Definition missing_publisher_message : string :=
  localize "manifest.missing.publisher"
    ("Manifest is missing " ++ double_quote ++ "publisher" ++ double_quote ++ " field.").

Definition missing_vsix_message : string :=
  localize "manifest.missing.vsix"
    ("Manifest is missing .vsix file in " ++ double_quote ++ "files" ++ double_quote ++ " field.").

Definition errorMessage (p : t) : string :=
  if negb (truthy_opt (_publisher p)) then missing_publisher_message
  else if negb (truthy_opt (vsixFile p)) then missing_vsix_message
  else "".

Definition toString (p : t) : string := displayName p.

(** A run of [updateState] calls, one lookup result each. *)
Definition refreshes (p : t) (lookups : list (option ExtensionInfo.t)) : t :=
  fold_left updateState lookups p.

(** The static [Package.compare]: the comparison function that sorts
    packages by display name. *)
Definition compare (a b : t) : Z :=
  let nameA := toUpperCase (displayName a) in
  let nameB := toUpperCase (displayName b) in
  if string_lt nameA nameB then (-1)%Z
  else if string_gt nameA nameB then 1%Z
  else 0%Z.

End Class.

Section Contents.

Context {Registry : Type}.

(** [path.join]. *)
Variable join : string -> string -> string.

(** What [await glob(pattern, { cwd, nocase: true })] resolved to. *)
Variable glob : string -> string -> list string.

(** What [await registry.downloadPackage(package)] resolved to. *)
Variable downloadPackage : Registry -> @t Registry -> Uri.

(** What [getContents] returns; [None] is [null]. *)
Record Contents : Type := mkContents {
  manifest : Uri;
  vsix : option Uri;
  readme : option Uri;
  changelog : option Uri
}.

Definition getContents (p : @t Registry) : Contents :=
  let directory := downloadPackage (registry p) p in
  {| manifest := uriJoin join directory "package.json";
     vsix :=
       match vsixFile p with
       | Some file =>
           if truthy_string file then Some (uriJoin join directory file) else None
       | None => None
       end;
     readme := findFile join glob directory README_GLOB;
     changelog := findFile join glob directory CHANGELOG_GLOB |}.

End Contents.
End Package.

(** ** Notions the statements below are phrased with *)

(** The manifest has an object-valued [engines] field that contains the
    [vscode] key. *)
Definition has_vscode_engine (manifest : Manifest) : Prop :=
  exists props, get manifest "engines" = VObject props /\ In "vscode" (keys props).

(** The manifest has a string [name] field. *)
Definition has_name (manifest : Manifest) : Prop :=
  exists s, get manifest "name" = VString s.

(** The manifest has no string [publisher] field. *)
Definition lacks_publisher (manifest : Manifest) : Prop :=
  forall s, get manifest "publisher" <> VString s.

(** No entry of the manifest's [files] list is a string ending in [.vsix]
    (also when there is no [files] list at all). *)
Definition no_vsix_entry (manifest : Manifest) : Prop :=
  forall files s,
    get manifest "files" = VArray files ->
    In (VString s) files -> endsWith s ".vsix" = false.

(** A non-empty array. *)
Definition nonempty_array (v : Value) : Prop :=
  exists x rest, v = VArray (x :: rest).

(** Two code units that are the same letter in either case. *)
Definition is_upper (c : ascii) : bool :=
  let n := nat_of_ascii c in (65 <=? n)%nat && (n <=? 90)%nat.

Definition same_letter (a b : ascii) : bool :=
  Ascii.eqb a b
  || (is_upper a && (nat_of_ascii b =? nat_of_ascii a + 32)%nat)
  || (is_upper b && (nat_of_ascii a =? nat_of_ascii b + 32)%nat).

(** Two strings that differ at most in the case of the letters [A]-[Z]. *)
Fixpoint differ_only_in_case (s t : string) : bool :=
  match s, t with
  | EmptyString, EmptyString => true
  | String a s', String b t' => same_letter a b && differ_only_in_case s' t'
  | _, _ => false
  end.

(** A text of ASCII characters. *)
Fixpoint is_ascii (s : string) : bool :=
  match s with
  | EmptyString => true
  | String c r => (nat_of_ascii c <? 128)%nat && is_ascii r
  end.

(** [t] is [s] with the letters [A]-[Z] moved to [a]-[z] and every other
    character kept, place by place. *)
Definition lowercase_of (s t : string) : Prop :=
  String.length t = String.length s /\
  forall i c,
    String.get i s = Some c ->
    exists c',
      String.get i t = Some c' /\
      nat_of_ascii c' = if is_upper c then nat_of_ascii c + 32 else nat_of_ascii c.

(** One of the three forms of the Greek sigma. *)
Definition sigma_form (c d : ascii) : bool :=
  capital_sigma_at c d || small_sigma_at c d.

(** Two texts that differ at most in the case of their letters, the Greek
    sigma included: its capital form and its two small forms are one
    letter. *)
Fixpoint differ_only_in_letter_case (s t : string) : bool :=
  match s, t with
  | EmptyString, EmptyString => true
  | String a s', String b t' =>
      match s', t' with
      | String a2 s'', String b2 t'' =>
          if sigma_form a a2 && sigma_form b b2 then differ_only_in_letter_case s'' t''
          else same_letter a b && differ_only_in_letter_case s' t'
      | _, _ => same_letter a b && differ_only_in_letter_case s' t'
      end
  | _, _ => false
  end.


(** ** Sample data *)
Module Samples.

Definition v (major minor patch : N) : SemVer :=
  {| major := major; minor := minor; patch := patch; prerelease := []; build := [] |}.

(** The values [parse] takes on the version strings of the samples. *)
Definition parse (s : string) : option SemVer :=
  if String.eqb s "10.0.0" then Some (v 10 0 0)
  else if String.eqb s "9.0.0" then Some (v 9 0 0)
  else if String.eqb s "1.2.3" then Some (v 1 2 3)
  else None.

(** A message bundle without translations: the default message is used. *)
Definition localize (key message : string) : string := message.

Definition engines : Value := VObject [("vscode", VString "^1.40.0")].

Definition manifest (publisher name version : string) : Manifest :=
  [ ("name", VString name);
    ("publisher", VString publisher);
    ("version", VString version);
    ("engines", engines);
    ("files", VArray [VString "README.md"; VString "extension.vsix"]) ].

(** The same without a [publisher] and without a [.vsix] file. *)
Definition bare_manifest (name : string) : Manifest :=
  [ ("name", VString name);
    ("engines", engines);
    ("files", VArray [VString "README.md"]) ].

Definition local_host : Host :=
  {| remoteName := None; remoteExtensionKind := [] |}.

Definition remote_host (config : list (string * string)) : Host :=
  {| remoteName := Some "ssh-remote"; remoteExtensionKind := config |}.

Definition installed (kind : ExtensionKind) (version : SemVer) : option ExtensionInfo.t :=
  Some {| ExtensionInfo.extensionKind := Some kind; ExtensionInfo.version := Some version |}.

(** A manifest that declares [extensionKind] [ui]. *)
Definition ui_manifest : Manifest :=
  ("extensionKind", VString "ui") :: manifest "Acme" "Tool" "1.2.3".

(** A manifest whose [main] field is the empty string. *)
Definition empty_main_manifest : Manifest :=
  ("main", VString "") :: manifest "Acme" "Tool" "1.2.3".

(** A manifest with an entry point. *)
Definition main_manifest : Manifest :=
  ("main", VString "./out/extension.js") :: manifest "Acme" "Tool" "1.2.3".

(** The package the constructor makes of [manifest "Acme" "Tool" _], with a
    given version and display name. *)
Definition tool (displayName : string) (version : SemVer) : @Package.t unit :=
  Package.mk "Tool" "acme.tool" displayName "Tool" version tt
    (Some "extension.vsix") (Some "Acme") false true None None.

(** A manifest with two [.vsix] entries after entries that are skipped. *)
Definition two_vsix_manifest : Manifest :=
  [ ("name", VString "Tool");
    ("engines", engines);
    ("files", VArray [VString "README.md"; VNumber 7; VString "first.vsix";
                      VString "second.vsix"]) ].

(** A manifest that declares a kind the classification does not know. *)
Definition web_manifest : Manifest :=
  ("extensionKind", VString "web") :: manifest "Acme" "Tool" "1.2.3".

(** The Greek sigma in UTF-8: capital (U+03A3), small (U+03C3) and final
    (U+03C2). *)
Definition capital_sigma : string :=
  String (ascii_of_nat 206) (String (ascii_of_nat 163) EmptyString).
Definition small_sigma : string :=
  String (ascii_of_nat 207) (String (ascii_of_nat 131) EmptyString).
Definition final_sigma : string :=
  String (ascii_of_nat 207) (String (ascii_of_nat 130) EmptyString).

(** A [path.join] for plain relative file names. *)
Definition join (directory file : string) : string := directory ++ "/" ++ file.

(** A directory that holds a readme and no changelog. *)
Definition glob (pattern cwd : string) : list string :=
  if String.eqb pattern README_GLOB then ["README.md"] else [].

Definition downloadPackage (registry : unit) (p : @Package.t unit) : Uri :=
  Uri_file ("/downloads/" ++ Package.name p).

End Samples.

(** ** Lemmas on strings and values *)

Lemma as_string_Some (v : Value) (s : string) :
  Package.as_string v = Some s <-> v = VString s.
Proof.
  destruct v; simpl; split; intros H; try discriminate; congruence.
Qed.

Lemma as_string_None (v : Value) :
  Package.as_string v = None <-> forall s, v <> VString s.
Proof.
  destruct v; simpl; split; intros H; try discriminate; try reflexivity.
  - exfalso. now apply (H s).
Qed.

Lemma index_name_not_vscode (i : nat) : String.eqb "vscode" (index_name i) = false.
Proof.
  apply String.eqb_neq. unfold index_name.
  destruct (Nat.to_uint i); simpl; discriminate.
Qed.

Lemma existsb_eqb_In (k : string) (l : list string) :
  existsb (String.eqb k) l = true <-> In k l.
Proof.
  rewrite existsb_exists. split.
  - intros [x [Hin Heq]]. apply String.eqb_eq in Heq. now subst.
  - intros Hin. exists k. split; [assumption | apply String.eqb_refl].
Qed.

Lemma array_has_no_vscode (elems : list Value) :
  has_property "vscode" (VArray elems) = false.
Proof.
  unfold has_property.
  change (String.eqb "vscode" "length") with false. rewrite orb_false_l.
  apply not_true_is_false. rewrite existsb_exists.
  intros [i [_ Hi]]. rewrite index_name_not_vscode in Hi. discriminate.
Qed.

Lemma not_an_extension_false_iff (manifest : Manifest) :
  Package.not_an_extension manifest = false <-> has_vscode_engine manifest.
Proof.
  unfold Package.not_an_extension, has_vscode_engine.
  destruct (get manifest "engines") as [| | b | n | s | elems | props] eqn:E.
  1-5: split; [simpl; discriminate | intros [props [H _]]; discriminate].
  - rewrite array_has_no_vscode. split; [simpl; discriminate|].
    intros [props [H _]]. discriminate.
  - unfold typeof, is_null, has_property.
    change (String.eqb "object" "object") with true. cbn [negb orb].
    rewrite negb_false_iff, existsb_eqb_In. split.
    + intros H. now exists props.
    + intros [props' [H Hin]]. now injection H as ->.
Qed.

Lemma first_vsix_None (files : list Value) :
  (forall s, In (VString s) files -> endsWith s ".vsix" = false) ->
  first_vsix files = None.
Proof.
  induction files as [| file rest IH]; intros H; [reflexivity|].
  assert (Hrest : first_vsix rest = None).
  { apply IH. intros s Hs. apply H. now right. }
  destruct file; simpl; try assumption.
  rewrite (H s) by now left. assumption.
Qed.

Lemma findVsixFile_None (manifest : Manifest) :
  no_vsix_entry manifest -> findVsixFile manifest = None.
Proof.
  unfold no_vsix_entry, findVsixFile. intros H.
  destruct (get manifest "files"); try reflexivity.
  apply first_vsix_None. intros s Hs. now apply (H elems).
Qed.

Lemma lower_ascii_of_upper (c : ascii) :
  is_upper c = true -> lower_ascii c = ascii_of_nat (nat_of_ascii c + 32).
Proof.
  unfold is_upper, lower_ascii. cbv zeta. now intros ->.
Qed.

Lemma lower_ascii_of_other (c : ascii) :
  is_upper c = false -> lower_ascii c = c.
Proof.
  unfold is_upper, lower_ascii. cbv zeta. now intros ->.
Qed.

Lemma shifted_upper_is_lower (a b : ascii) :
  is_upper a = true -> nat_of_ascii b = nat_of_ascii a + 32 ->
  lower_ascii a = lower_ascii b.
Proof.
  intros Ha Hb. rewrite (lower_ascii_of_upper a Ha).
  assert (Hnot : is_upper b = false).
  { unfold is_upper in *. cbv zeta in *. rewrite Hb.
    apply andb_true_iff in Ha. destruct Ha as [Hlo Hhi].
    apply Nat.leb_le in Hlo. apply Nat.leb_le in Hhi.
    apply andb_false_iff. right. apply Nat.leb_gt. lia. }
  rewrite (lower_ascii_of_other b Hnot), <- Hb. apply ascii_nat_embedding.
Qed.

Lemma same_letter_lower (a b : ascii) :
  same_letter a b = true -> lower_ascii a = lower_ascii b.
Proof.
  unfold same_letter. intros H.
  apply orb_true_iff in H. destruct H as [H | H].
  - apply orb_true_iff in H. destruct H as [H | H].
    + apply Ascii.eqb_eq in H. now subst.
    + apply andb_true_iff in H. destruct H as [Hup Heq].
      apply Nat.eqb_eq in Heq. now apply shifted_upper_is_lower.
  - apply andb_true_iff in H. destruct H as [Hup Heq].
    apply Nat.eqb_eq in Heq. symmetry. now apply shifted_upper_is_lower.
Qed.

Lemma differ_only_in_case_lower (s : string) :
  forall t, differ_only_in_case s t = true -> lower_letters s = lower_letters t.
Proof.
  induction s as [| a s IH]; intros [| b t] H; simpl in H; try discriminate.
  - reflexivity.
  - apply andb_true_iff in H. destruct H as [Hab Hst].
    simpl. now rewrite (same_letter_lower a b Hab), (IH t Hst).
Qed.

Lemma lower_letters_app (s t : string) :
  lower_letters (s ++ t) = lower_letters s ++ lower_letters t.
Proof.
  induction s as [| c s IH]; simpl; [reflexivity | now rewrite IH].
Qed.

Lemma lower_ascii_idempotent (c : ascii) :
  lower_ascii (lower_ascii c) = lower_ascii c.
Proof.
  destruct (is_upper c) eqn:E.
  - symmetry. apply shifted_upper_is_lower; [assumption|].
    rewrite (lower_ascii_of_upper c E). apply nat_ascii_embedding.
    unfold is_upper in E. cbv zeta in E. apply andb_true_iff in E.
    destruct E as [_ Hhi]. apply Nat.leb_le in Hhi. lia.
  - now rewrite (lower_ascii_of_other c E), (lower_ascii_of_other c E).
Qed.

(** Lower-casing leaves the code units from 128 on as they are and makes
    none. *)
Lemma byte_is_lower (k : nat) (c : ascii) :
  128 <= k -> byte_is k (lower_ascii c) = byte_is k c.
Proof.
  intros Hk. destruct (is_upper c) eqn:E.
  - rewrite (lower_ascii_of_upper c E). unfold byte_is.
    unfold is_upper in E. cbv zeta in E. apply andb_true_iff in E.
    destruct E as [Hlo Hhi]. apply Nat.leb_le in Hlo. apply Nat.leb_le in Hhi.
    rewrite nat_ascii_embedding by lia.
    transitivity false; [|symmetry]; apply Nat.eqb_neq; lia.
  - now rewrite (lower_ascii_of_other c E).
Qed.

Lemma lower_from_plain (p : bool) (c : ascii) (r : string) :
  byte_is 206 c || byte_is 207 c = false ->
  lower_from p (String c r)
  = String (lower_ascii c) (lower_from (context_after p c) r).
Proof.
  intros H. cbn [lower_from]. now rewrite H.
Qed.

Lemma ascii_is_plain (c : ascii) :
  (nat_of_ascii c <? 128)%nat = true -> byte_is 206 c || byte_is 207 c = false.
Proof.
  intros H. apply Nat.ltb_lt in H. unfold byte_is.
  apply orb_false_iff. split; apply Nat.eqb_neq; lia.
Qed.

(** On a text of ASCII characters [toLowerCase] moves [A]-[Z] to [a]-[z],
    character by character. *)
Lemma lower_from_ascii (s : string) :
  is_ascii s = true -> forall p, lower_from p s = lower_letters s.
Proof.
  induction s as [| c s IH]; intros H p; [reflexivity|].
  simpl in H. apply andb_true_iff in H. destruct H as [Hc Hs].
  rewrite (lower_from_plain p c s (ascii_is_plain c Hc)). simpl.
  now rewrite IH.
Qed.

Lemma toLowerCase_ascii (s : string) :
  is_ascii s = true -> toLowerCase s = lower_letters s.
Proof.
  intros H. now apply lower_from_ascii.
Qed.

Lemma is_ascii_app (s t : string) :
  is_ascii (s ++ t) = is_ascii s && is_ascii t.
Proof.
  induction s as [| c s IH]; simpl; [reflexivity|].
  now rewrite IH, andb_assoc.
Qed.

Lemma differ_only_in_case_ascii (s : string) :
  forall t, differ_only_in_case s t = true -> is_ascii s = true -> is_ascii t = true.
Proof.
  induction s as [| a s IH]; intros [| b t] H Hs; simpl in H; try discriminate.
  - reflexivity.
  - apply andb_true_iff in H. destruct H as [Hab Hst].
    simpl in Hs. apply andb_true_iff in Hs. destruct Hs as [Ha Hs].
    simpl. rewrite (IH t Hst Hs), andb_true_r.
    apply Nat.ltb_lt in Ha. apply Nat.ltb_lt.
    unfold same_letter, is_upper in Hab. cbv zeta in Hab.
    apply orb_true_iff in Hab. destruct Hab as [Hab | Hab].
    + apply orb_true_iff in Hab. destruct Hab as [Hab | Hab].
      * apply Ascii.eqb_eq in Hab. now subst.
      * apply andb_true_iff in Hab. destruct Hab as [Hup Heq].
        apply andb_true_iff in Hup. destruct Hup as [_ Hhi].
        apply Nat.leb_le in Hhi. apply Nat.eqb_eq in Heq. lia.
    + apply andb_true_iff in Hab. destruct Hab as [Hup _].
      apply andb_true_iff in Hup. destruct Hup as [_ Hhi].
      apply Nat.leb_le in Hhi. lia.
Qed.

Lemma lower_ascii_number (c : ascii) :
  nat_of_ascii (lower_ascii c)
  = if is_upper c then nat_of_ascii c + 32 else nat_of_ascii c.
Proof.
  destruct (is_upper c) eqn:E.
  - rewrite (lower_ascii_of_upper c E). apply nat_ascii_embedding.
    unfold is_upper in E. cbv zeta in E. apply andb_true_iff in E.
    destruct E as [_ Hhi]. apply Nat.leb_le in Hhi. lia.
  - now rewrite (lower_ascii_of_other c E).
Qed.

Lemma lower_letters_spec (s : string) : lowercase_of s (lower_letters s).
Proof.
  split.
  - induction s as [| c s IH]; simpl; [reflexivity | now rewrite IH].
  - induction s as [| c s IH]; intros i x Hget; [destruct i; discriminate Hget|].
    destruct i as [| i]; simpl in Hget |- *.
    + injection Hget as <-. eexists. split; [reflexivity | apply lower_ascii_number].
    + now apply IH.
Qed.

(** The first code unit of a lower-cased text. *)
Lemma lower_from_first (p : bool) (c : ascii) (r : string) :
  exists rest,
    lower_from p (String c r)
    = String (if match r with
                 | String d _ => capital_sigma_at c d
                 | EmptyString => false
                 end
              then ascii_of_nat 207 else lower_ascii c) rest.
Proof.
  cbn [lower_from].
  destruct (byte_is 206 c || byte_is 207 c) eqn:Elead.
  - destruct r as [| d r']; [eexists; reflexivity|].
    destruct (capital_sigma_at c d) eqn:Ecap; [eexists; reflexivity|].
    destruct (small_sigma_at c d) eqn:Esmall; [|eexists; reflexivity].
    exists (String d (lower_from true r')). f_equal.
    unfold small_sigma_at in Esmall. apply andb_true_iff in Esmall.
    destruct Esmall as [Hc _]. unfold byte_is in Hc. apply Nat.eqb_eq in Hc.
    symmetry. apply lower_ascii_of_other. unfold is_upper. cbv zeta. rewrite Hc.
    reflexivity.
  - replace (match r with
             | String d _ => capital_sigma_at c d
             | EmptyString => false
             end) with false; [eexists; reflexivity|].
    destruct r as [| d r']; [reflexivity|].
    unfold capital_sigma_at. apply orb_false_iff in Elead.
    destruct Elead as [-> _]. reflexivity.
Qed.

(** A lower-cased text is left as it is by a second lower-casing, in every
    context. *)
Lemma lower_from_settled (n : nat) :
  forall s, String.length s <= n ->
  forall p q, lower_from q (lower_from p s) = lower_from p s.
Proof.
  induction n as [| n IH]; intros s Hlen p q.
  - destruct s; [reflexivity | simpl in Hlen; lia].
  - destruct s as [| c r]; [reflexivity|].
    simpl in Hlen.
    assert (Hplain :
              (byte_is 206 c || byte_is 207 c = false \/
               match r with
               | String d _ => capital_sigma_at c d = false /\ small_sigma_at c d = false
               | EmptyString => True
               end) ->
              lower_from p (String c r)
              = String (lower_ascii c) (lower_from (context_after p c) r) ->
              lower_from q (lower_from p (String c r)) = lower_from p (String c r)).
    { intros Hcase Hp. rewrite Hp.
      assert (Hrest : forall q', lower_from q' (lower_from (context_after p c) r)
                                 = lower_from (context_after p c) r).
      { intros q'. apply IH. lia. }
      assert (Hgoal : lower_from q (String (lower_ascii c)
                                      (lower_from (context_after p c) r))
                      = String (lower_ascii (lower_ascii c))
                          (lower_from (context_after q (lower_ascii c))
                             (lower_from (context_after p c) r))).
      { destruct Hcase as [Hlead | Hpair].
        - apply lower_from_plain. now rewrite !byte_is_lower by lia.
        - cbn [lower_from]. rewrite !byte_is_lower by lia.
          destruct (byte_is 206 c || byte_is 207 c) eqn:Elead; [|reflexivity].
          destruct r as [| d r']; [reflexivity|].
          destruct Hpair as [Hcap Hsmall].
          destruct (lower_from_first (context_after p c) d r') as [rest ->].
          assert (Hd : forall x,
                     capital_sigma_at c x = capital_sigma_at c d /\
                     small_sigma_at c x = small_sigma_at c d ->
                     capital_sigma_at (lower_ascii c) x = false /\
                     small_sigma_at (lower_ascii c) x = false).
          { intros x [H1 H2]. unfold capital_sigma_at, small_sigma_at in *.
            rewrite !byte_is_lower by lia. now rewrite H1, H2, Hcap, Hsmall. }
          destruct (match r' with
                    | String d0 _ => capital_sigma_at d d0
                    | EmptyString => false
                    end) eqn:Enext.
          + assert (H207 : capital_sigma_at (lower_ascii c) (ascii_of_nat 207) = false /\
                           small_sigma_at (lower_ascii c) (ascii_of_nat 207) = false).
            { unfold capital_sigma_at, small_sigma_at. split.
              - now rewrite andb_false_r.
              - now rewrite andb_false_r. }
            destruct H207 as [-> ->]. reflexivity.
          + assert (Hx : capital_sigma_at (lower_ascii c) (lower_ascii d) = false /\
                         small_sigma_at (lower_ascii c) (lower_ascii d) = false).
            { apply Hd. unfold capital_sigma_at, small_sigma_at.
              now rewrite !byte_is_lower by lia. }
            destruct Hx as [-> ->]. reflexivity. }
      rewrite Hgoal, lower_ascii_idempotent, Hrest. reflexivity. }
    destruct (byte_is 206 c || byte_is 207 c) eqn:Elead.
    + destruct r as [| d r'].
      * apply Hplain; [now right | cbn [lower_from]; now rewrite Elead].
      * simpl in Hlen.
        assert (Htail : forall p' q', lower_from q' (lower_from p' r') = lower_from p' r').
        { intros p' q'. apply IH. lia. }
        destruct (capital_sigma_at c d) eqn:Ecap.
        { cbn [lower_from]. rewrite Elead, Ecap.
          destruct (p && negb (cased_follows r')); cbn; now rewrite Htail. }
        destruct (small_sigma_at c d) eqn:Esmall.
        { cbn [lower_from]. rewrite Elead, Ecap, Esmall.
          cbn [lower_from]. rewrite Elead, Ecap, Esmall. now rewrite Htail. }
        apply Hplain; [now right|].
        cbn [lower_from]. now rewrite Elead, Ecap, Esmall.
    + apply Hplain; [now left|]. now apply lower_from_plain.
Qed.

Lemma toLowerCase_idempotent (s : string) :
  toLowerCase (toLowerCase s) = toLowerCase s.
Proof.
  unfold toLowerCase. now apply (lower_from_settled (String.length s)).
Qed.

(** ** Host-kind classification *)






Lemma isNonEmptyArray_true (v : Value) :
  isNonEmptyArray v = true <-> nonempty_array v.
Proof.
  unfold nonempty_array. split.
  - destruct v as [| | | | | [| x rest] |]; simpl; try discriminate.
    intros _. now exists x, rest.
  - intros (x & rest & ->). reflexivity.
Qed.

(** C3, amended: with a remote and no resolved kind, a manifest whose [main]
    is truthy is classified workspace, a manifest whose
    [extensionDependencies] or [extensionPack] is a non-empty array is
    classified workspace, and every other manifest is classified UI; so an
    empty array counts like an absent field. *)
Theorem heuristics_when_unresolved
  (host : Host) (id : string) (manifest : Manifest) (remote : string) :
  remoteName host = Some remote ->
  getExtensionKind host id manifest = None ->
  (truthy (get manifest "main") = true -> isUiExtension host id manifest = false) /\
  (nonempty_array (get manifest "extensionDependencies") \/
   nonempty_array (get manifest "extensionPack") ->
   isUiExtension host id manifest = false) /\
  (truthy (get manifest "main") = false ->
   ~ nonempty_array (get manifest "extensionDependencies") ->
   ~ nonempty_array (get manifest "extensionPack") ->
   isUiExtension host id manifest = true).
Proof.
  intros Hremote Hkind. unfold isUiExtension, ui_by_heuristics.
  rewrite Hremote, Hkind. split; [|split].
  - now intros ->.
  - intros Harr. destruct (truthy (get manifest "main")); [reflexivity|].
    destruct Harr as [H | H]; apply isNonEmptyArray_true in H; rewrite H.
    + reflexivity.
    + now rewrite orb_true_r.
  - intros -> Hdeps Hpack.
    destruct (isNonEmptyArray (get manifest "extensionDependencies")) eqn:Ed.
    { exfalso. now apply Hdeps, isNonEmptyArray_true. }
    destruct (isNonEmptyArray (get manifest "extensionPack")) eqn:Ep.
    { exfalso. now apply Hpack, isNonEmptyArray_true. }
    reflexivity.
Qed.

(** ** The class: construction, refresh and the getters *)
Section PackageFacts.

Context {Registry : Type}.
Variable parseVersion : string -> option SemVer.
Variable localize : string -> string -> string.

Local Abbreviation new := (@Package.new Registry parseVersion localize).
Local Abbreviation Pkg := (@Package.t Registry).

(** Reads a successful construction back: the gates passed, and the package
    is the record the constructor assembled. *)
Ltac invert_new H name :=
  unfold Package.new in H;
  match type of H with
  | (if Package.not_an_extension ?m then _ else _) = inr ?p =>
      let Egate := fresh "Egate" in
      let Ename := fresh "Ename" in
      destruct (Package.not_an_extension m) eqn:Egate; [discriminate H|];
      destruct (Package.as_string (get m "name")) as [name|] eqn:Ename; [|discriminate H];
      injection H as H; subst p
  end.

(** Closes one direction of an outcome equivalence once the two gate tests
    have been decided. *)
Ltac settle_outcome :=
  repeat match goal with
         | H : exists _, _ |- _ => destruct H
         | H : _ /\ _ |- _ => destruct H
         end;
  try discriminate; try contradiction; try assumption;
  try (eexists; reflexivity).

Lemma new_succeeds (host : Host) (registry : Registry) (manifest : Manifest) :
  has_vscode_engine manifest -> has_name manifest ->
  exists p, new host registry manifest = inr p.
Proof.
  intros Hengine [n Hname]. unfold Package.new.
  apply not_an_extension_false_iff in Hengine. rewrite Hengine, Hname. simpl.
  eexists. reflexivity.
Qed.

Lemma updateState_publisher (p : Pkg) (e : option ExtensionInfo.t) :
  Package._publisher (Package.updateState p e) = Package._publisher p.
Proof. destruct e; reflexivity. Qed.

Lemma updateState_vsixFile (p : Pkg) (e : option ExtensionInfo.t) :
  Package.vsixFile (Package.updateState p e) = Package.vsixFile p.
Proof. destruct e; reflexivity. Qed.

Lemma refreshes_constants (lookups : list (option ExtensionInfo.t)) :
  forall p : Pkg,
    Package._publisher (Package.refreshes p lookups) = Package._publisher p /\
    Package.vsixFile (Package.refreshes p lookups) = Package.vsixFile p.
Proof.
  unfold Package.refreshes.
  induction lookups as [| e rest IH]; intros p; simpl; [now split|].
  destruct (IH (Package.updateState p e)) as [Hp Hv].
  rewrite Hp, Hv, updateState_publisher, updateState_vsixFile. now split.
Qed.

Lemma state_Invalid_iff (p : Pkg) :
  Package.state p = Invalid <->
  truthy_opt (Package._publisher p) = false \/ truthy_opt (Package.vsixFile p) = false.
Proof.
  unfold Package.state.
  destruct (truthy_opt (Package._publisher p)), (truthy_opt (Package.vsixFile p)); simpl.
  - split; [|intros [H | H]; discriminate].
    destruct (Package.isUpdateAvailable p); [discriminate|].
    destruct (Package.isInstalled p); [|discriminate].
    destruct (Package.isUiExtension p); discriminate.
  - split; auto.
  - split; auto.
  - split; auto.
Qed.

(** The order in which [state] settles a package that has a publisher and a
    [.vsix] file, with [isUpdateAvailable] as the source computes it. *)
Lemma state_valid (p : Pkg) :
  truthy_opt (Package._publisher p) = true ->
  truthy_opt (Package.vsixFile p) = true ->
  Package.state p =
    if Package.isUpdateAvailable p then UpdateAvailable
    else if Package._isInstalled p then
      if Package.isUiExtension p then Installed else InstalledRemote
    else Available.
Proof.
  intros Hp Hv. unfold Package.state. rewrite Hp, Hv. reflexivity.
Qed.

(** Every [extensionId] the constructor passes to [isUiExtension] is in
    lower case. *)
Lemma extensionId_lower_case
  (host : Host) (registry : Registry) (manifest : Manifest) (p : Pkg) :
  new host registry manifest = inr p ->
  toLowerCase (Package.extensionId p) = Package.extensionId p /\
  Package._isUiExtension p = isUiExtension host (Package.extensionId p) manifest.
Proof.
  intros Hnew. invert_new Hnew n. cbn [Package.extensionId Package._isUiExtension].
  split; [apply toLowerCase_idempotent | reflexivity].
Qed.

(** A package whose version is spelled like the installed one is never an
    update. *)
Lemma same_version_is_no_update (p : Pkg) (installed : SemVer) :
  Package._installedVersion p = Some installed ->
  Semver.toString (Package.version p) = Semver.toString installed ->
  Package.isUpdateAvailable p = false.
Proof.
  intros Hinstalled Hsame.
  unfold Package.isUpdateAvailable, Package.installedVersion. rewrite Hinstalled.
  unfold Semver.gt_operator, string_gt, String.ltb. rewrite Hsame.
  pose proof (String.compare_antisym (Semver.toString installed)
                (Semver.toString installed)) as Hanti.
  destruct (String.compare (Semver.toString installed) (Semver.toString installed));
    simpl in Hanti; try discriminate Hanti; reflexivity.
Qed.

(** C4: a package whose manifest has no publisher, or no entry of [files]
    ending in [.vsix], is in state [Invalid] after construction and after any
    sequence of [updateState] calls, whatever the lookups returned. *)
Theorem invalid_whatever_is_installed
  (host : Host) (registry : Registry) (manifest : Manifest) (p : Pkg)
  (lookups : list (option ExtensionInfo.t)) :
  new host registry manifest = inr p ->
  lacks_publisher manifest \/ no_vsix_entry manifest ->
  Package.state (Package.refreshes p lookups) = Invalid.
Proof.
  intros Hnew Hlack. apply state_Invalid_iff.
  destruct (refreshes_constants lookups p) as [-> ->].
  invert_new Hnew n. simpl.
  destruct Hlack as [Hpub | Hvsix].
  - left. apply as_string_None in Hpub. now rewrite Hpub.
  - right. now rewrite findVsixFile_None.
Qed.

(** C6: [updateState] leaves every field but the three snapshot fields as it
    was; on a hit the three are the installed flag [true] and the kind and
    version of that one result, on a miss they are [false], unknown and
    [null]; and once a live kind is recorded the [isUiExtension] getter
    answers by it, not by the construction-time hint. *)
Theorem updateState_writes_the_snapshot (p : Pkg) (extension : option ExtensionInfo.t) :
  let p' := Package.updateState p extension in
  (Package.name p' = Package.name p /\
   Package.extensionId p' = Package.extensionId p /\
   Package.displayName p' = Package.displayName p /\
   Package.description p' = Package.description p /\
   Package.version p' = Package.version p /\
   Package.registry p' = Package.registry p /\
   Package.vsixFile p' = Package.vsixFile p /\
   Package._publisher p' = Package._publisher p /\
   Package._isUiExtension p' = Package._isUiExtension p) /\
  match extension with
  | Some e =>
      Package._isInstalled p' = true /\
      Package._installedExtensionKind p' = ExtensionInfo.extensionKind e /\
      Package._installedVersion p' = ExtensionInfo.version e
  | None =>
      Package._isInstalled p' = false /\
      Package._installedExtensionKind p' = None /\
      Package._installedVersion p' = None
  end /\
  (forall kind,
     Package._installedExtensionKind p' = Some kind ->
     (Package.isUiExtension p' = true <-> kind = UI)).
Proof.
  intros p'. split; [|split].
  - subst p'. destruct extension; simpl; repeat split.
  - subst p'. destruct extension; simpl; repeat split.
  - intros kind Hkind. unfold Package.isUiExtension. rewrite Hkind.
    destruct kind; simpl; split; congruence.
Qed.

(** C9: [errorMessage] is a non-empty string only when [state] is [Invalid],
    and with both the publisher and the [.vsix] file missing it is the
    missing-publisher message. *)
Theorem errorMessage_only_when_Invalid (p : Pkg) :
  (Package.errorMessage localize p <> "" -> Package.state p = Invalid) /\
  (Package._publisher p = None -> Package.vsixFile p = None ->
   Package.errorMessage localize p = Package.missing_publisher_message localize).
Proof.
  split.
  - intros Hmsg. apply state_Invalid_iff. unfold Package.errorMessage in Hmsg.
    destruct (truthy_opt (Package._publisher p)); [|now left].
    destruct (truthy_opt (Package.vsixFile p)); [|now right].
    simpl in Hmsg. now contradiction Hmsg.
  - intros Hp _. unfold Package.errorMessage. now rewrite Hp.
Qed.

(** C5: construction throws the not-an-extension error exactly when the
    manifest has no object-valued [engines] field with the [vscode] key, the
    missing-name error exactly when that gate passes and [name] is not a
    string, and succeeds for every manifest that passes both checks. *)
Theorem construction_outcome (host : Host) (registry : Registry) (manifest : Manifest) :
  ((exists message, new host registry manifest = inl (NotAnExtensionError message))
   <-> ~ has_vscode_engine manifest) /\
  ((exists message, new host registry manifest = inl (TypeError message))
   <-> has_vscode_engine manifest /\ ~ has_name manifest) /\
  ((exists p, new host registry manifest = inr p)
   <-> has_vscode_engine manifest /\ has_name manifest).
Proof.
  pose proof (not_an_extension_false_iff manifest) as Hgate.
  assert (Hname : has_name manifest <->
                  exists n, Package.as_string (get manifest "name") = Some n).
  { unfold has_name. split; intros [n H]; exists n; now apply as_string_Some. }
  unfold Package.new.
  destruct (Package.not_an_extension manifest).
  - assert (Hno : ~ has_vscode_engine manifest).
    { intros H. apply Hgate in H. discriminate. }
    repeat split; intros; settle_outcome.
  - assert (Hyes : has_vscode_engine manifest) by now apply Hgate.
    destruct (Package.as_string (get manifest "name")) as [n|] eqn:En.
    + assert (Hn : has_name manifest) by (apply Hname; now exists n).
      repeat split; intros; settle_outcome.
    + assert (Hn : ~ has_name manifest).
      { intros H. apply Hname in H. destruct H as [n H]. discriminate. }
      repeat split; intros; settle_outcome.
Qed.

(** C7: every manifest that passes the two gates is constructed, and its
    [version] is a [SemVer]: the sentinel 0.0.0 when the manifest has no
    version string or [parse] rejects it, the parsed version otherwise. *)
Theorem version_is_lenient (host : Host) (registry : Registry) (manifest : Manifest) :
  has_vscode_engine manifest -> has_name manifest ->
  exists p,
    new host registry manifest = inr p /\
    ((forall s, get manifest "version" <> VString s) ->
     Package.version p = Semver.zero) /\
    (forall s, get manifest "version" = VString s -> parseVersion s = None ->
               Package.version p = Semver.zero) /\
    (forall s v, get manifest "version" = VString s -> parseVersion s = Some v ->
                 Package.version p = v).
Proof.
  intros Hengine Hname.
  destruct (new_succeeds host registry manifest Hengine Hname) as [p Hnew].
  exists p. split; [assumption|].
  invert_new Hnew n. simpl. repeat split.
  - intros Habsent. apply as_string_None in Habsent. now rewrite Habsent.
  - intros s Hs Hparse. rewrite Hs. simpl. now rewrite Hparse.
  - intros s v Hs Hparse. rewrite Hs. simpl. now rewrite Hparse.
Qed.

(** C10: a manifest whose [publisher] is the empty string gives a package in
    state [Invalid] with the missing-publisher message, and an [extensionId]
    that is a dot followed by the lower-cased name: the empty string is used,
    not the unknown-publisher placeholder. *)
Theorem empty_publisher_is_invalid
  (host : Host) (registry : Registry) (manifest : Manifest) (p : Pkg) :
  get manifest "publisher" = VString "" ->
  new host registry manifest = inr p ->
  Package.state p = Invalid /\
  Package.errorMessage localize p = Package.missing_publisher_message localize /\
  Package.extensionId p = "." ++ toLowerCase (Package.name p).
Proof.
  intros Hpub Hnew. invert_new Hnew n. rewrite Hpub.
  unfold Package.state, Package.errorMessage. simpl. repeat split.
Qed.

(** C8, amended: [extensionId] is the lower-casing of the publisher, or of
    the unknown-publisher placeholder when the manifest has none, joined to
    the name by a dot; on ASCII text that lower-casing moves [A]-[Z] to
    [a]-[z] and keeps every other character, and two manifests whose ASCII
    publishers and names differ only in the case of the letters [A]-[Z] have
    the same [extensionId]. *)
Theorem extensionId_ignores_ascii_case
  (host1 host2 : Host) (registry1 registry2 : Registry) (m1 m2 : Manifest)
  (p1 p2 : Pkg) (n1 n2 : string) :
  new host1 registry1 m1 = inr p1 ->
  new host2 registry2 m2 = inr p2 ->
  get m1 "name" = VString n1 ->
  get m2 "name" = VString n2 ->
  (forall pub, get m1 "publisher" = VString pub ->
               Package.extensionId p1 = toLowerCase (pub ++ "." ++ n1)) /\
  (lacks_publisher m1 ->
   Package.extensionId p1 =
     toLowerCase (localize "publisher.unknown" "Unknown" ++ "." ++ n1)) /\
  (forall pub, get m1 "publisher" = VString pub ->
               is_ascii pub = true -> is_ascii n1 = true ->
               lowercase_of (pub ++ "." ++ n1) (Package.extensionId p1)) /\
  (lacks_publisher m1 ->
   is_ascii (localize "publisher.unknown" "Unknown") = true -> is_ascii n1 = true ->
   lowercase_of (localize "publisher.unknown" "Unknown" ++ "." ++ n1)
     (Package.extensionId p1)) /\
  (forall pub1 pub2,
     get m1 "publisher" = VString pub1 ->
     get m2 "publisher" = VString pub2 ->
     is_ascii pub1 = true -> is_ascii n1 = true ->
     differ_only_in_case pub1 pub2 = true ->
     differ_only_in_case n1 n2 = true ->
     Package.extensionId p1 = Package.extensionId p2).
Proof.
  intros Hnew1 Hnew2 Hname1 Hname2.
  invert_new Hnew1 a1. invert_new Hnew2 a2.
  rewrite Hname1 in Ename. rewrite Hname2 in Ename0.
  simpl in Ename, Ename0. injection Ename as <-. injection Ename0 as <-.
  cbn [Package.extensionId].
  assert (Hjoin : forall pub n, is_ascii pub = true -> is_ascii n = true ->
                    toLowerCase (pub ++ "." ++ n) = lower_letters (pub ++ "." ++ n)).
  { intros pub n Hpub Hn. apply toLowerCase_ascii.
    rewrite is_ascii_app, Hpub. simpl. exact Hn. }
  split; [|split; [|split; [|split]]].
  - intros pub Hpub. now rewrite Hpub.
  - intros Hlack. apply as_string_None in Hlack. now rewrite Hlack.
  - intros pub Hpub Hascii Hn. rewrite Hpub.
    change (Package.publisher_or_unknown localize (Package.as_string (VString pub)))
      with pub.
    change (pub ++ String "." n1) with (pub ++ "." ++ n1).
    rewrite (Hjoin pub n1 Hascii Hn). apply lower_letters_spec.
  - intros Hlack Hascii Hn. apply as_string_None in Hlack. rewrite Hlack.
    change (Package.publisher_or_unknown localize None)
      with (localize "publisher.unknown" "Unknown").
    change (localize "publisher.unknown" "Unknown" ++ String "." n1)
      with (localize "publisher.unknown" "Unknown" ++ "." ++ n1).
    rewrite (Hjoin _ n1 Hascii Hn). apply lower_letters_spec.
  - intros pub1 pub2 Hpub1 Hpub2 Hascii Hn Hpub Hnames. rewrite Hpub1, Hpub2.
    change (Package.publisher_or_unknown localize (Package.as_string (VString pub1)))
      with pub1.
    change (Package.publisher_or_unknown localize (Package.as_string (VString pub2)))
      with pub2.
    change (pub1 ++ String "." n1) with (pub1 ++ "." ++ n1).
    change (pub2 ++ String "." n2) with (pub2 ++ "." ++ n2).
    rewrite (Hjoin pub1 n1 Hascii Hn).
    rewrite (Hjoin pub2 n2 (differ_only_in_case_ascii pub1 pub2 Hpub Hascii)
               (differ_only_in_case_ascii n1 n2 Hnames Hn)).
    rewrite !lower_letters_app. cbn [lower_letters append].
    now rewrite (differ_only_in_case_lower pub1 pub2 Hpub),
                (differ_only_in_case_lower n1 n2 Hnames).
Qed.

End PackageFacts.

(** ** The update test on concrete versions *)

(** C1: where the claim fails.  The package has a publisher and a [.vsix]
    file and version 10.0.0, and 9.0.0 is installed: the package is strictly
    newer, yet [state] is [Installed], not [UpdateAvailable], because
    [isUpdateAvailable] compares the two version strings.  The other way
    round, package 9.0.0 over an installed 10.0.0 is reported as
    [UpdateAvailable]. *)
Theorem state_compares_version_strings :
  (exists p : @Package.t unit,
     Package.new Samples.parse Samples.localize Samples.local_host tt
       (Samples.manifest "Acme" "Tool" "10.0.0") = inr p /\
     Semver.newer (Package.version p) (Samples.v 9 0 0) = true /\
     Package.state (Package.updateState p (Samples.installed UI (Samples.v 9 0 0)))
       = Installed) /\
  (exists p : @Package.t unit,
     Package.new Samples.parse Samples.localize Samples.local_host tt
       (Samples.manifest "Acme" "Tool" "9.0.0") = inr p /\
     Semver.newer (Package.version p) (Samples.v 10 0 0) = false /\
     Package.state (Package.updateState p (Samples.installed UI (Samples.v 10 0 0)))
       = UpdateAvailable).
Proof.
  split; eexists; (split; [reflexivity | split; reflexivity]).
Qed.

(** C3: where the claim fails.  With a remote and no resolved kind, a
    manifest whose [main] field is present but is the empty string is
    classified UI. *)
Lemma empty_main_is_classified_ui :
  remoteName (Samples.remote_host []) = Some "ssh-remote" /\
  getExtensionKind (Samples.remote_host []) "acme.tool" Samples.empty_main_manifest = None /\
  assoc "main" Samples.empty_main_manifest = Some (VString "") /\
  isUiExtension (Samples.remote_host []) "acme.tool" Samples.empty_main_manifest = true.
Proof.
  repeat split.
Qed.

(** ** The statements at concrete inputs *)


(** A manifest with an entry point, no setting and no declared kind. *)
Lemma heuristics_when_unresolved_witness :
  remoteName (Samples.remote_host []) = Some "ssh-remote" /\
  getExtensionKind (Samples.remote_host []) "acme.tool" Samples.main_manifest = None /\
  isUiExtension (Samples.remote_host []) "acme.tool" Samples.main_manifest = false.
Proof.
  split; [reflexivity | split; [reflexivity|]].
  destruct (heuristics_when_unresolved (Samples.remote_host []) "acme.tool"
              Samples.main_manifest "ssh-remote" eq_refl eq_refl) as [Hmain _].
  apply Hmain. reflexivity.
Defined.

(** A manifest without publisher, refreshed three times. *)
Lemma invalid_whatever_is_installed_witness :
  exists p,
    Package.new Samples.parse Samples.localize Samples.local_host tt
      (Samples.bare_manifest "Tool") = inr p /\
    lacks_publisher (Samples.bare_manifest "Tool") /\
    Package.state
      (Package.refreshes p
         [Samples.installed UI (Samples.v 1 2 3); None;
          Samples.installed Workspace (Samples.v 9 0 0)]) = Invalid.
Proof.
  eexists. split; [reflexivity|].
  assert (Hlack : lacks_publisher (Samples.bare_manifest "Tool")).
  { intros s H. vm_compute in H. discriminate H. }
  split; [exact Hlack|].
  apply (invalid_whatever_is_installed Samples.parse Samples.localize
           Samples.local_host tt (Samples.bare_manifest "Tool")).
  - reflexivity.
  - left. exact Hlack.
Defined.

(** The version string [not-a-version]. *)
Lemma version_is_lenient_witness :
  has_vscode_engine (Samples.manifest "Acme" "Tool" "not-a-version") /\
  has_name (Samples.manifest "Acme" "Tool" "not-a-version") /\
  exists p : @Package.t unit,
    Package.new Samples.parse Samples.localize Samples.local_host tt
      (Samples.manifest "Acme" "Tool" "not-a-version") = inr p /\
    Package.version p = Semver.zero.
Proof.
  assert (Hengine : has_vscode_engine (Samples.manifest "Acme" "Tool" "not-a-version")).
  { eexists. split; [reflexivity | now left]. }
  assert (Hname : has_name (Samples.manifest "Acme" "Tool" "not-a-version")).
  { eexists. reflexivity. }
  split; [exact Hengine | split; [exact Hname|]].
  destruct (version_is_lenient Samples.parse Samples.localize Samples.local_host tt
              (Samples.manifest "Acme" "Tool" "not-a-version") Hengine Hname)
    as (p & Hnew & _ & Hbad & _).
  exists p. split; [exact Hnew|].
  apply (Hbad "not-a-version"); reflexivity.
Defined.

(** C8: where the claim fails.  The names [A] + capital sigma and [a] +
    small sigma differ only in letter case, and so do the publishers [Acme]
    and [acme]; the capital sigma ends its word, so it is lower-cased to the
    final sigma, and the two identities differ in their last character. *)
Lemma final_sigma_splits_the_identity :
  exists p1 p2 : @Package.t unit,
    Package.new Samples.parse Samples.localize Samples.local_host tt
      (Samples.manifest "Acme" ("A" ++ Samples.capital_sigma) "1.2.3") = inr p1 /\
    Package.new Samples.parse Samples.localize Samples.local_host tt
      (Samples.manifest "acme" ("a" ++ Samples.small_sigma) "1.2.3") = inr p2 /\
    differ_only_in_letter_case "Acme" "acme" = true /\
    differ_only_in_letter_case ("A" ++ Samples.capital_sigma) ("a" ++ Samples.small_sigma)
      = true /\
    Package.extensionId p1 = "acme.a" ++ Samples.final_sigma /\
    Package.extensionId p2 = "acme.a" ++ Samples.small_sigma /\
    Package.extensionId p1 <> Package.extensionId p2.
Proof.
  eexists. eexists.
  split; [reflexivity | split; [reflexivity|]].
  split; [reflexivity | split; [reflexivity|]].
  split; [reflexivity | split; [reflexivity|]].
  vm_compute. discriminate.
Qed.

(** Publisher [Foo], name [Bar] against publisher [foo], name [bar]. *)
Lemma extensionId_ignores_ascii_case_witness :
  exists p1 p2 : @Package.t unit,
    Package.new Samples.parse Samples.localize Samples.local_host tt
      (Samples.manifest "Foo" "Bar" "1.2.3") = inr p1 /\
    Package.new Samples.parse Samples.localize Samples.local_host tt
      (Samples.manifest "foo" "bar" "1.2.3") = inr p2 /\
    is_ascii "Foo" = true /\ is_ascii "Bar" = true /\
    differ_only_in_case "Foo" "foo" = true /\ differ_only_in_case "Bar" "bar" = true /\
    lowercase_of "Foo.Bar" (Package.extensionId p1) /\
    Package.extensionId p1 = "foo.bar" /\
    Package.extensionId p2 = "foo.bar".
Proof.
  eexists. eexists. split; [reflexivity | split; [reflexivity|]].
  repeat (split; [reflexivity|]).
  destruct (extensionId_ignores_ascii_case Samples.parse Samples.localize
              Samples.local_host Samples.local_host tt tt
              (Samples.manifest "Foo" "Bar" "1.2.3") (Samples.manifest "foo" "bar" "1.2.3")
              _ _ "Bar" "bar" eq_refl eq_refl eq_refl eq_refl)
    as (_ & _ & Hlower & _ & Hsame).
  split; [exact (Hlower "Foo" eq_refl eq_refl eq_refl)|].
  split; [reflexivity|].
  rewrite <- (Hsame "Foo" "foo" eq_refl eq_refl eq_refl eq_refl eq_refl eq_refl).
  reflexivity.
Defined.

(** The empty publisher. *)
Lemma empty_publisher_is_invalid_witness :
  exists p : @Package.t unit,
    get (Samples.manifest "" "Tool" "1.2.3") "publisher" = VString "" /\
    Package.new Samples.parse Samples.localize Samples.local_host tt
      (Samples.manifest "" "Tool" "1.2.3") = inr p /\
    Package.state p = Invalid /\
    Package.extensionId p = ".tool".
Proof.
  eexists. split; [reflexivity | split; [reflexivity|]].
  destruct (empty_publisher_is_invalid Samples.parse Samples.localize
              Samples.local_host tt (Samples.manifest "" "Tool" "1.2.3") _
              eq_refl eq_refl) as (Hstate & _ & Hid).
  split; [exact Hstate | exact Hid].
Defined.

(** A manifest without [engines], one without [name], and a complete one. *)
Lemma construction_outcome_witness :
  (exists message,
     @Package.new unit Samples.parse Samples.localize Samples.local_host tt
       [("name", VString "Tool")] = inl (NotAnExtensionError message)) /\
  (exists message,
     @Package.new unit Samples.parse Samples.localize Samples.local_host tt
       [("engines", Samples.engines)] = inl (TypeError message)) /\
  (exists p,
     @Package.new unit Samples.parse Samples.localize Samples.local_host tt
       (Samples.bare_manifest "Tool") = inr p).
Proof.
  split; [|split].
  - apply (construction_outcome Samples.parse Samples.localize Samples.local_host tt
             [("name", VString "Tool")]).
    intros [props [H _]]. vm_compute in H. discriminate H.
  - apply (construction_outcome Samples.parse Samples.localize Samples.local_host tt
             [("engines", Samples.engines)]).
    split.
    + eexists. split; [reflexivity | now left].
    + intros [s H]. vm_compute in H. discriminate H.
  - apply (construction_outcome Samples.parse Samples.localize Samples.local_host tt
             (Samples.bare_manifest "Tool")).
    split.
    + eexists. split; [reflexivity | now left].
    + eexists. reflexivity.
Defined.

(** A hit that reports the workspace host, on a package hinted as UI. *)
Lemma updateState_writes_the_snapshot_witness :
  exists p : @Package.t unit,
    Package.new Samples.parse Samples.localize Samples.local_host tt
      (Samples.manifest "Acme" "Tool" "1.2.3") = inr p /\
    Package._isUiExtension p = true /\
    Package.isUiExtension
      (Package.updateState p (Samples.installed Workspace (Samples.v 1 2 3))) <> true.
Proof.
  eexists. split; [reflexivity | split; [reflexivity|]].
  intros Hui.
  match type of Hui with
  | Package.isUiExtension (Package.updateState ?p ?e) = true =>
      destruct (updateState_writes_the_snapshot p e) as (_ & _ & Hkind)
  end.
  specialize (Hkind Workspace eq_refl). apply Hkind in Hui. discriminate Hui.
Defined.

(** The package of a manifest without publisher and without [.vsix] file. *)
Lemma errorMessage_only_when_Invalid_witness :
  exists p : @Package.t unit,
    Package.new Samples.parse Samples.localize Samples.local_host tt
      (Samples.bare_manifest "Tool") = inr p /\
    Package.errorMessage Samples.localize p <> "" /\
    Package.state p = Invalid /\
    Package.errorMessage Samples.localize p =
      Package.missing_publisher_message Samples.localize.
Proof.
  eexists. split; [reflexivity|].
  assert (Hmessage : forall p : @Package.t unit,
             Package.errorMessage Samples.localize p
             = Package.missing_publisher_message Samples.localize ->
             Package.errorMessage Samples.localize p <> "").
  { intros p ->. discriminate. }
  match goal with
  | |- Package.errorMessage _ ?p <> _ /\ _ =>
      destruct (errorMessage_only_when_Invalid Samples.localize p) as [Hstate Hboth]
  end.
  pose proof (Hboth eq_refl eq_refl) as Hmsg.
  split; [exact (Hmessage _ Hmsg) | split; [|exact Hmsg]].
  exact (Hstate (Hmessage _ Hmsg)).
Defined.

(** ** Further facts: the order of strings and [Package.compare] *)

Lemma string_compare_refl (s : string) : String.compare s s = Eq.
Proof.
  pose proof (String.compare_antisym s s) as H.
  destruct (String.compare s s); simpl in H; try discriminate H; reflexivity.
Qed.

Lemma string_compare_lt_trans (s1 : string) :
  forall s2 s3,
    String.compare s1 s2 = Lt -> String.compare s2 s3 = Lt ->
    String.compare s1 s3 = Lt.
Proof.
  induction s1 as [| c1 s1 IH]; intros [| c2 s2] [| c3 s3]; simpl;
    try discriminate; try reflexivity.
  unfold Ascii.compare.
  destruct (N.compare_spec (N_of_ascii c1) (N_of_ascii c2)) as [E12 | L12 | G12];
    try discriminate;
    destruct (N.compare_spec (N_of_ascii c2) (N_of_ascii c3)) as [E23 | L23 | G23];
    try discriminate; intros H12 H23.
  - rewrite E12, E23, N.compare_refl. now apply (IH s2 s3).
  - rewrite E12. apply N.compare_lt_iff in L23. now rewrite L23.
  - rewrite <- E23. apply N.compare_lt_iff in L12. now rewrite L12.
  - assert (H13 : (N_of_ascii c1 < N_of_ascii c3)%N) by lia.
    apply N.compare_lt_iff in H13. now rewrite H13.
Qed.

Lemma string_leb_trans (s1 s2 s3 : string) :
  String.leb s1 s2 = true -> String.leb s2 s3 = true -> String.leb s1 s3 = true.
Proof.
  unfold String.leb.
  destruct (String.compare s1 s2) eqn:E12; try discriminate;
    destruct (String.compare s2 s3) eqn:E23; try discriminate; intros _ _.
  - apply String.compare_eq_iff in E12, E23. subst. now rewrite string_compare_refl.
  - apply String.compare_eq_iff in E12. subst. now rewrite E23.
  - apply String.compare_eq_iff in E23. subst. now rewrite E12.
  - now rewrite (string_compare_lt_trans s1 s2 s3 E12 E23).
Qed.

Lemma upper_ascii_of_upper (c : ascii) : is_upper c = true -> upper_ascii c = c.
Proof.
  unfold is_upper, upper_ascii. cbv zeta. intros H.
  apply andb_true_iff in H. destruct H as [_ Hhi]. apply Nat.leb_le in Hhi.
  replace ((97 <=? nat_of_ascii c)%nat) with false; [reflexivity|].
  symmetry. apply Nat.leb_gt. lia.
Qed.

Lemma shifted_upper_has_same_upper (a b : ascii) :
  is_upper a = true -> nat_of_ascii b = nat_of_ascii a + 32 ->
  upper_ascii a = upper_ascii b.
Proof.
  intros Ha Hb. rewrite (upper_ascii_of_upper a Ha).
  unfold is_upper in Ha. cbv zeta in Ha.
  apply andb_true_iff in Ha. destruct Ha as [Hlo Hhi].
  apply Nat.leb_le in Hlo. apply Nat.leb_le in Hhi.
  unfold upper_ascii. cbv zeta. rewrite Hb.
  replace ((97 <=? nat_of_ascii a + 32)%nat) with true
    by (symmetry; apply Nat.leb_le; lia).
  replace ((nat_of_ascii a + 32 <=? 122)%nat) with true
    by (symmetry; apply Nat.leb_le; lia).
  cbn [andb]. replace (nat_of_ascii a + 32 - 32) with (nat_of_ascii a) by lia.
  symmetry. apply ascii_nat_embedding.
Qed.

Lemma same_letter_upper (a b : ascii) :
  same_letter a b = true -> upper_ascii a = upper_ascii b.
Proof.
  unfold same_letter. intros H.
  apply orb_true_iff in H. destruct H as [H | H].
  - apply orb_true_iff in H. destruct H as [H | H].
    + apply Ascii.eqb_eq in H. now subst.
    + apply andb_true_iff in H. destruct H as [Hup Heq].
      apply Nat.eqb_eq in Heq. now apply shifted_upper_has_same_upper.
  - apply andb_true_iff in H. destruct H as [Hup Heq].
    apply Nat.eqb_eq in Heq. symmetry. now apply shifted_upper_has_same_upper.
Qed.

Lemma differ_only_in_case_upper (s : string) :
  forall t, differ_only_in_case s t = true -> upper_letters s = upper_letters t.
Proof.
  induction s as [| a s IH]; intros [| b t] H; simpl in H; try discriminate.
  - reflexivity.
  - apply andb_true_iff in H. destruct H as [Hab Hst].
    simpl. now rewrite (same_letter_upper a b Hab), (IH t Hst).
Qed.

(** Two code units with the same upper-casing are one letter. *)
Lemma upper_ascii_same_letter (a b : ascii) :
  upper_ascii a = upper_ascii b -> same_letter a b = true.
Proof.
  assert (Hshift : forall x y,
             ((97 <=? nat_of_ascii x)%nat && (nat_of_ascii x <=? 122)%nat) = true ->
             ((97 <=? nat_of_ascii y)%nat && (nat_of_ascii y <=? 122)%nat) = false ->
             ascii_of_nat (nat_of_ascii x - 32) = y ->
             is_upper y = true /\ nat_of_ascii x = nat_of_ascii y + 32).
  { intros x y Hx _ Hy. apply andb_true_iff in Hx. destruct Hx as [Hlo Hhi].
    apply Nat.leb_le in Hlo. apply Nat.leb_le in Hhi.
    assert (Hn : nat_of_ascii y = nat_of_ascii x - 32).
    { rewrite <- Hy. apply nat_ascii_embedding. lia. }
    unfold is_upper. cbv zeta. rewrite Hn. split; [|lia].
    apply andb_true_iff. split; apply Nat.leb_le; lia. }
  unfold upper_ascii, same_letter. cbv zeta.
  destruct ((97 <=? nat_of_ascii a)%nat && (nat_of_ascii a <=? 122)%nat) eqn:Ea;
    destruct ((97 <=? nat_of_ascii b)%nat && (nat_of_ascii b <=? 122)%nat) eqn:Eb;
    intros H.
  - assert (Hn : nat_of_ascii a - 32 = nat_of_ascii b - 32).
    { apply andb_true_iff in Ea. destruct Ea as [_ Ha]. apply Nat.leb_le in Ha.
      apply andb_true_iff in Eb. destruct Eb as [_ Hb]. apply Nat.leb_le in Hb.
      rewrite <- (nat_ascii_embedding (nat_of_ascii a - 32)) by lia.
      rewrite <- (nat_ascii_embedding (nat_of_ascii b - 32)) by lia.
      now rewrite H. }
    assert (Hab : a = b).
    { apply andb_true_iff in Ea. destruct Ea as [Ha _]. apply Nat.leb_le in Ha.
      apply andb_true_iff in Eb. destruct Eb as [Hb _]. apply Nat.leb_le in Hb.
      rewrite <- (ascii_nat_embedding a), <- (ascii_nat_embedding b).
      f_equal. lia. }
    subst. now rewrite Ascii.eqb_refl.
  - destruct (Hshift a b Ea Eb H) as [Hup Hn].
    rewrite Hup. apply Nat.eqb_eq in Hn. rewrite Hn.
    now rewrite !orb_true_r.
  - destruct (Hshift b a Eb Ea (eq_sym H)) as [Hup Hn].
    rewrite Hup. apply Nat.eqb_eq in Hn. rewrite Hn.
    cbn [andb]. now rewrite orb_true_r.
  - subst. now rewrite Ascii.eqb_refl.
Qed.

Lemma upper_letters_same (s : string) :
  forall t, upper_letters s = upper_letters t -> differ_only_in_case s t = true.
Proof.
  induction s as [| a s IH]; intros [| b t] H; simpl in H; try discriminate.
  - reflexivity.
  - injection H as Hab Hst. simpl.
    now rewrite (upper_ascii_same_letter a b Hab), (IH t Hst).
Qed.

(** On a text of ASCII characters [toUpperCase] moves [a]-[z] to [A]-[Z],
    character by character. *)
Lemma toUpperCase_ascii (s : string) :
  is_ascii s = true -> toUpperCase s = upper_letters s.
Proof.
  induction s as [| c s IH]; intros H; [reflexivity|].
  simpl in H. apply andb_true_iff in H. destruct H as [Hc Hs].
  cbn [toUpperCase upper_letters].
  replace (byte_is 207 c) with false.
  - now rewrite (IH Hs).
  - symmetry. apply Nat.ltb_lt in Hc. unfold byte_is. apply Nat.eqb_neq. lia.
Qed.

(** The sign of [Package.compare] read off the order of the upper-cased
    display names. *)
Lemma compare_by_order {Registry : Type} (a b : @Package.t Registry) :
  Package.compare a b =
    match String.compare (toUpperCase (Package.displayName a))
                         (toUpperCase (Package.displayName b)) with
    | Lt => (-1)%Z
    | Eq => 0%Z
    | Gt => 1%Z
    end.
Proof.
  unfold Package.compare, string_lt, string_gt, String.ltb. cbv zeta.
  rewrite (String.compare_antisym (toUpperCase (Package.displayName b))).
  destruct (String.compare (toUpperCase (Package.displayName a))
                           (toUpperCase (Package.displayName b))); reflexivity.
Qed.

(** X1: swapping the arguments of [Package.compare] negates the result, so
    the function is a consistent comparator for a sort. *)
Theorem compare_antisymmetric {Registry : Type} (a b : @Package.t Registry) :
  Package.compare a b = (- Package.compare b a)%Z.
Proof.
  rewrite !compare_by_order.
  rewrite (String.compare_antisym (toUpperCase (Package.displayName b))).
  destruct (String.compare (toUpperCase (Package.displayName a))
                           (toUpperCase (Package.displayName b))); reflexivity.
Qed.

(** X2: for display names of ASCII characters, [Package.compare] answers 0
    exactly when the two names differ at most in the case of their
    letters. *)
Theorem compare_zero_iff {Registry : Type} (a b : @Package.t Registry) :
  is_ascii (Package.displayName a) = true ->
  is_ascii (Package.displayName b) = true ->
  (Package.compare a b = 0%Z <->
   differ_only_in_case (Package.displayName a) (Package.displayName b) = true).
Proof.
  intros Ha Hb. rewrite compare_by_order.
  rewrite (toUpperCase_ascii _ Ha), (toUpperCase_ascii _ Hb). split.
  - destruct (String.compare _ _) eqn:E; try discriminate.
    intros _. apply upper_letters_same. now apply String.compare_eq_iff.
  - intros H. rewrite (differ_only_in_case_upper _ _ H).
    now rewrite string_compare_refl.
Qed.

(** X3: [Package.compare] is transitive: when [a] does not sort after [b]
    and [b] does not sort after [c], then [a] does not sort after [c]. *)
Theorem compare_transitive {Registry : Type} (a b c : @Package.t Registry) :
  (Package.compare a b <= 0)%Z -> (Package.compare b c <= 0)%Z ->
  (Package.compare a c <= 0)%Z.
Proof.
  assert (Hle : forall x y : @Package.t Registry,
             (Package.compare x y <= 0)%Z <->
             String.leb (toUpperCase (Package.displayName x))
                        (toUpperCase (Package.displayName y)) = true).
  { intros x y. rewrite compare_by_order. unfold String.leb.
    destruct (String.compare _ _); split; intros H; try reflexivity;
      try discriminate; lia. }
  intros Hab Hbc. apply Hle. apply Hle in Hab. apply Hle in Hbc.
  now apply (string_leb_trans _ _ _ Hab Hbc).
Qed.

(** ** Further facts: the [.vsix] entry of [files] *)

Lemma endsWith_vsix_truthy (s : string) :
  endsWith s ".vsix" = true -> truthy_string s = true.
Proof.
  destruct s as [| c s]; [discriminate | reflexivity].
Qed.

Lemma first_vsix_Some (files : list Value) (f : string) :
  first_vsix files = Some f ->
  exists before after,
    files = (before ++ VString f :: after)%list /\
    endsWith f ".vsix" = true /\
    forall s, In (VString s) before -> endsWith s ".vsix" = false.
Proof.
  induction files as [| file rest IH]; simpl; [discriminate|].
  assert (Hskip : (forall s, file = VString s -> endsWith s ".vsix" = false) ->
                  first_vsix rest = Some f ->
                  exists before after,
                    (file :: rest) = (before ++ VString f :: after)%list /\
                    endsWith f ".vsix" = true /\
                    forall s, In (VString s) before -> endsWith s ".vsix" = false).
  { intros Hfile Hrest. destruct (IH Hrest) as (before & after & -> & Hf & Hbefore).
    exists (file :: before), after. split; [reflexivity | split; [assumption|]].
    intros s [Hs | Hs]; [now apply Hfile | now apply Hbefore]. }
  destruct file; try (apply Hskip; intros s' Hs'; discriminate Hs').
  destruct (endsWith s ".vsix") eqn:E.
  - intros H. injection H as <-. exists [], rest.
    split; [reflexivity | split; [assumption|]]. intros s' [].
  - apply Hskip. intros s' Hs'. injection Hs' as <-. assumption.
Qed.

(** X4: when [findVsixFile] finds a file, it is the first string entry of
    [manifest.files] that ends in [.vsix]: a non-empty string, with no such
    entry before it. *)
Theorem findVsixFile_is_first (manifest : Manifest) (f : string) :
  findVsixFile manifest = Some f ->
  exists before after,
    get manifest "files" = VArray (before ++ VString f :: after)%list /\
    endsWith f ".vsix" = true /\
    f <> "" /\
    forall s, In (VString s) before -> endsWith s ".vsix" = false.
Proof.
  unfold findVsixFile.
  destruct (get manifest "files") as [| | | | | files |]; try discriminate.
  intros H. destruct (first_vsix_Some files f H) as (before & after & -> & Hf & Hbefore).
  exists before, after. repeat split; try assumption.
  intros ->. discriminate Hf.
Qed.

(** X5: [findVsixFile] returns [null] exactly when no entry of
    [manifest.files] is a string ending in [.vsix]; this includes a [files]
    field that is missing or is not an array. *)
Theorem findVsixFile_null_iff (manifest : Manifest) :
  findVsixFile manifest = None <-> no_vsix_entry manifest.
Proof.
  split; [|apply findVsixFile_None].
  intros Hnone files s Hfiles Hin.
  destruct (endsWith s ".vsix") eqn:E; [|reflexivity].
  unfold findVsixFile in Hnone. rewrite Hfiles in Hnone.
  exfalso. clear Hfiles. induction files as [| file rest IH]; [destruct Hin|].
  simpl in Hnone. destruct Hin as [-> | Hin].
  - rewrite E in Hnone. discriminate Hnone.
  - apply IH; [|assumption].
    destruct file; try assumption.
    destruct (endsWith s0 ".vsix"); [discriminate Hnone | assumption].
Qed.

(** ** Further facts: host-kind classification *)

Lemma find_all_fail (f : string -> bool) (l : list string) :
  (forall x, In x l -> f x = false) -> find f l = None.
Proof.
  induction l as [| x l IH]; intros H; simpl; [reflexivity|].
  rewrite (H x) by now left. apply IH. intros y Hy. apply H. now right.
Qed.

(** X6: when no key of the [remote.extensionKind] setting lower-cases to the
    identity, the kind is the manifest's [extensionKind] string, and it is
    unresolved when the manifest has no such string. *)
Theorem getExtensionKind_falls_back_to_manifest
  (host : Host) (id : string) (manifest : Manifest) :
  (forall key, In key (keys (remoteExtensionKind host)) -> toLowerCase key <> id) ->
  (forall kind, get manifest "extensionKind" = VString kind ->
                getExtensionKind host id manifest = Some kind) /\
  ((forall kind, get manifest "extensionKind" <> VString kind) ->
   getExtensionKind host id manifest = None).
Proof.
  intros Hkeys. unfold getExtensionKind. cbv zeta.
  rewrite find_all_fail.
  - split.
    + intros kind ->. reflexivity.
    + intros Hnone. destruct (get manifest "extensionKind"); try reflexivity.
      exfalso. now apply (Hnone s).
  - intros key Hkey. apply String.eqb_neq. now apply Hkeys.
Qed.

(** X7: a resolved kind other than [ui] and [workspace] (the comparison is
    exact, so [UI] is such a kind) is treated like an unresolved one: the
    extension is classified UI exactly when [main] is falsy and neither
    [extensionDependencies] nor [extensionPack] is a non-empty array. *)
Theorem unknown_kind_uses_heuristics
  (host : Host) (id : string) (manifest : Manifest) (remote kind : string) :
  remoteName host = Some remote ->
  getExtensionKind host id manifest = Some kind ->
  kind <> "ui" -> kind <> "workspace" ->
  (isUiExtension host id manifest = true <->
   truthy (get manifest "main") = false /\
   ~ nonempty_array (get manifest "extensionDependencies") /\
   ~ nonempty_array (get manifest "extensionPack")).
Proof.
  intros Hremote Hkind Hui Hworkspace. unfold isUiExtension, ui_by_heuristics.
  rewrite Hremote, Hkind.
  apply String.eqb_neq in Hui. apply String.eqb_neq in Hworkspace.
  rewrite Hui, Hworkspace.
  rewrite <- !isNonEmptyArray_true.
  destruct (truthy (get manifest "main")),
           (isNonEmptyArray (get manifest "extensionDependencies")),
           (isNonEmptyArray (get manifest "extensionPack")); simpl;
    split; try discriminate; try (intros (H1 & H2 & H3); congruence);
    intros _; repeat split; congruence.
Qed.

(** ** Further facts: the class over construction and refreshes *)
Section RefreshFacts.

Context {Registry : Type}.
Variable parseVersion : string -> option SemVer.
Variable localize : string -> string -> string.

Local Abbreviation new := (@Package.new Registry parseVersion localize).
Local Abbreviation Pkg := (@Package.t Registry).

Ltac invert_constructor H name :=
  unfold Package.new in H;
  match type of H with
  | (if Package.not_an_extension ?m then _ else _) = inr ?p =>
      let Egate := fresh "Egate" in
      let Ename := fresh "Ename" in
      destruct (Package.not_an_extension m) eqn:Egate; [discriminate H|];
      destruct (Package.as_string (get m "name")) as [name|] eqn:Ename; [|discriminate H];
      injection H as H; subst p
  end.

Lemma updateState_overwrites (p : Pkg) (e1 e2 : option ExtensionInfo.t) :
  Package.updateState (Package.updateState p e1) e2 = Package.updateState p e2.
Proof. destruct e1, e2; reflexivity. Qed.

Lemma updateState_after_refreshes (lookups : list (option ExtensionInfo.t)) :
  forall (p : Pkg) (e : option ExtensionInfo.t),
    Package.updateState (Package.refreshes p lookups) e = Package.updateState p e.
Proof.
  unfold Package.refreshes.
  induction lookups as [| x rest IH]; intros p e; simpl; [reflexivity|].
  now rewrite IH, updateState_overwrites.
Qed.

(** X8: a refresh replaces the whole snapshot: after any run of
    [updateState] calls the package is what the last call alone would have
    made of it, so the state depends on the most recent lookup only. *)
Theorem last_refresh_wins
  (p : Pkg) (lookups : list (option ExtensionInfo.t)) (e : option ExtensionInfo.t) :
  Package.refreshes p (lookups ++ [e])%list = Package.updateState p e /\
  Package.state (Package.refreshes p (lookups ++ [e])%list)
    = Package.state (Package.updateState p e).
Proof.
  assert (H : Package.refreshes p (lookups ++ [e])%list = Package.updateState p e).
  { unfold Package.refreshes. rewrite fold_left_app. simpl.
    apply updateState_after_refreshes. }
  now rewrite H.
Qed.

(** X9: a package that was just constructed is not installed, has no
    installed version and no update, and its state is [Available] or
    [Invalid]. *)
Theorem fresh_package_is_not_installed
  (host : Host) (registry : Registry) (manifest : Manifest) (p : Pkg) :
  new host registry manifest = inr p ->
  Package.isInstalled p = false /\
  Package.installedVersion p = None /\
  Package.isUpdateAvailable p = false /\
  (Package.state p = Available \/ Package.state p = Invalid).
Proof.
  intros Hnew. invert_constructor Hnew n.
  unfold Package.state, Package.isUpdateAvailable, Package.isInstalled,
    Package.installedVersion.
  cbn [Package._isInstalled Package._installedVersion Package._publisher Package.vsixFile].
  repeat split.
  destruct (truthy_opt _ && truthy_opt _); [now left | now right].
Qed.

(** X10: the snapshot stays consistent over construction and any run of
    refreshes: an installed version or an installed kind is recorded only
    while the installed flag is set, so [UpdateAvailable] is reported only
    for an installed extension. *)
Theorem snapshot_is_consistent
  (host : Host) (registry : Registry) (manifest : Manifest) (p : Pkg)
  (lookups : list (option ExtensionInfo.t)) :
  new host registry manifest = inr p ->
  let q := Package.refreshes p lookups in
  (Package.installedVersion q <> None -> Package.isInstalled q = true) /\
  (Package._installedExtensionKind q <> None -> Package.isInstalled q = true) /\
  (Package.state q = UpdateAvailable -> Package.isInstalled q = true).
Proof.
  intros Hnew q.
  assert (Hsnap : (Package._installedVersion q <> None -> Package._isInstalled q = true) /\
                  (Package._installedExtensionKind q <> None -> Package._isInstalled q = true)).
  { subst q. destruct lookups as [| x rest] using rev_ind.
    - invert_constructor Hnew n. cbn. split; intros H; now contradiction H.
    - destruct (last_refresh_wins p rest x) as [-> _].
      destruct x as [e|]; cbn; split; intros H; try reflexivity; now contradiction H. }
  destruct Hsnap as [Hversion Hkind].
  unfold Package.isInstalled, Package.installedVersion.
  split; [assumption | split; [assumption|]].
  intros Hstate. apply Hversion. intros Hnone.
  unfold Package.state, Package.isUpdateAvailable, Package.installedVersion in Hstate.
  rewrite Hnone in Hstate.
  destruct (truthy_opt _ && truthy_opt _); [|discriminate Hstate].
  destruct (Package.isInstalled q); [|discriminate Hstate].
  destruct (Package.isUiExtension q); discriminate Hstate.
Qed.

(** X11: the fields the constructor sets are never changed by a refresh:
    after any run of [updateState] calls the name, the [extensionId] (still in
    lower case), the display name, the description, the version, the
    registry and the construction-time host hint are those of the
    constructed package. *)
Theorem refreshes_keep_identity
  (host : Host) (registry : Registry) (manifest : Manifest) (p : Pkg)
  (lookups : list (option ExtensionInfo.t)) :
  new host registry manifest = inr p ->
  let q := Package.refreshes p lookups in
  Package.name q = Package.name p /\
  Package.extensionId q = Package.extensionId p /\
  toLowerCase (Package.extensionId q) = Package.extensionId q /\
  Package.displayName q = Package.displayName p /\
  Package.description q = Package.description p /\
  Package.version q = Package.version p /\
  Package.registry q = registry /\
  Package._isUiExtension q = isUiExtension host (Package.extensionId p) manifest.
Proof.
  intros Hnew q.
  assert (Hframe : Package.name q = Package.name p /\
                   Package.extensionId q = Package.extensionId p /\
                   Package.displayName q = Package.displayName p /\
                   Package.description q = Package.description p /\
                   Package.version q = Package.version p /\
                   Package.registry q = Package.registry p /\
                   Package._isUiExtension q = Package._isUiExtension p).
  { subst q. destruct lookups as [| x rest] using rev_ind.
    - repeat split.
    - destruct (last_refresh_wins p rest x) as [-> _]. destruct x; repeat split. }
  destruct Hframe as (Hn & Hid & Hd & Hdesc & Hv & Hr & Hui).
  rewrite Hn, Hid, Hd, Hdesc, Hv, Hr, Hui.
  invert_constructor Hnew n.
  cbn [Package.name Package.extensionId Package.displayName Package.description
       Package.version Package.registry Package._isUiExtension].
  repeat split. apply toLowerCase_idempotent.
Qed.

(** X12: for a package that is not [Invalid], the state after a refresh is
    [Available] exactly when the lookup found nothing. *)
Theorem available_iff_not_found (p : Pkg) (e : option ExtensionInfo.t) :
  Package.state p <> Invalid ->
  (Package.state (Package.updateState p e) = Available <-> e = None).
Proof.
  intros Hvalid.
  assert (Hp : truthy_opt (Package._publisher p) = true /\
               truthy_opt (Package.vsixFile p) = true).
  { destruct (truthy_opt (Package._publisher p)) eqn:E1,
             (truthy_opt (Package.vsixFile p)) eqn:E2; try (now split);
      exfalso; apply Hvalid; apply state_Invalid_iff; auto. }
  destruct Hp as [Hpub Hvsix].
  rewrite state_valid
    by (now rewrite ?updateState_publisher, ?updateState_vsixFile).
  destruct e as [e|]; cbn [Package.updateState Package._isInstalled].
  - split; [|discriminate].
    destruct (Package.isUpdateAvailable _); [discriminate|].
    destruct (Package.isUiExtension _); discriminate.
  - split; [reflexivity|]. intros _. reflexivity.
Qed.

(** X13: when the lookup finds the version the package itself has, a package
    that is not [Invalid] is [Installed] or [InstalledRemote] by the live
    kind of the lookup: UI gives [Installed] and workspace gives
    [InstalledRemote] whatever the construction-time hint was, and a lookup
    without a kind falls back to the hint. *)
Theorem same_version_state_follows_live_kind
  (p : Pkg) (kind : option ExtensionKind) (installed : SemVer) :
  Package.state p <> Invalid ->
  Semver.toString (Package.version p) = Semver.toString installed ->
  Package.state
    (Package.updateState p
       (Some {| ExtensionInfo.extensionKind := kind;
                ExtensionInfo.version := Some installed |}))
  = match kind with
    | Some UI => Installed
    | Some Workspace => InstalledRemote
    | None => if Package._isUiExtension p then Installed else InstalledRemote
    end.
Proof.
  intros Hvalid Hsame.
  assert (Hp : truthy_opt (Package._publisher p) = true /\
               truthy_opt (Package.vsixFile p) = true).
  { destruct (truthy_opt (Package._publisher p)) eqn:E1,
             (truthy_opt (Package.vsixFile p)) eqn:E2; try (now split);
      exfalso; apply Hvalid; apply state_Invalid_iff; auto. }
  destruct Hp as [Hpub Hvsix].
  rewrite state_valid by assumption.
  rewrite (same_version_is_no_update _ installed) by (try reflexivity; assumption).
  cbn [Package.updateState Package._isInstalled ExtensionInfo.extensionKind].
  unfold Package.isUiExtension. cbn [Package._installedExtensionKind Package._isUiExtension].
  destruct kind as [[|]|]; reflexivity.
Qed.

(** X14: the update test is never satisfied in both directions: when a
    package is an update over an installed version, a package of that
    installed version is no update over the first package's version. *)
Theorem update_is_one_way (p q : Pkg) (installed : SemVer) :
  Package._installedVersion p = Some installed ->
  Package.version q = installed ->
  Package._installedVersion q = Some (Package.version p) ->
  Package.isUpdateAvailable p = true ->
  Package.isUpdateAvailable q = false.
Proof.
  intros Hp Hq Hqi. unfold Package.isUpdateAvailable, Package.installedVersion.
  rewrite Hp, Hqi, Hq. unfold Semver.gt_operator, string_gt, String.ltb.
  rewrite (String.compare_antisym (Semver.toString (Package.version p))).
  destruct (String.compare (Semver.toString installed)
                           (Semver.toString (Package.version p)));
    simpl; intros H; try discriminate H; reflexivity.
Qed.

(** X15: validity is read off the manifest once and for all: after
    construction and any run of refreshes the state is [Invalid] exactly when
    the manifest has no non-empty [publisher] string or no entry of [files]
    ending in [.vsix]. *)
Theorem Invalid_iff_manifest
  (host : Host) (registry : Registry) (manifest : Manifest) (p : Pkg)
  (lookups : list (option ExtensionInfo.t)) :
  new host registry manifest = inr p ->
  (Package.state (Package.refreshes p lookups) = Invalid <->
   (forall publisher, get manifest "publisher" = VString publisher -> publisher = "")
   \/ no_vsix_entry manifest).
Proof.
  intros Hnew. rewrite state_Invalid_iff.
  destruct (refreshes_constants lookups p) as [-> ->].
  invert_constructor Hnew n. cbn [Package._publisher Package.vsixFile].
  assert (Hpub : truthy_opt (Package.as_string (get manifest "publisher")) = false <->
                 forall publisher, get manifest "publisher" = VString publisher ->
                                   publisher = "").
  { destruct (get manifest "publisher") as [| | | | s | |]; simpl;
      try (split; [intros _ publisher H; discriminate H | reflexivity]).
    unfold truthy_string. rewrite negb_false_iff, String.eqb_eq. split.
    - intros -> publisher H. now injection H as <-.
    - intros H. now apply H. }
  assert (Hvsix : truthy_opt (findVsixFile manifest) = false <-> no_vsix_entry manifest).
  { rewrite <- findVsixFile_null_iff.
    destruct (findVsixFile manifest) as [f|] eqn:E; simpl.
    - destruct (findVsixFile_is_first manifest f E) as (_ & _ & _ & Hends & _ & _).
      rewrite (endsWith_vsix_truthy f Hends). split; discriminate.
    - split; reflexivity. }
  now rewrite Hpub, Hvsix.
Qed.

(** X16: [errorMessage] is settled by the same two tests as [state]: it is
    the empty string when the state is not [Invalid], the missing-publisher
    message whenever the publisher is missing or empty, and the missing-file
    message when only the [.vsix] file is missing. *)
Theorem errorMessage_by_cause (p : Pkg) :
  (Package.state p <> Invalid -> Package.errorMessage localize p = "") /\
  (truthy_opt (Package._publisher p) = false ->
   Package.errorMessage localize p = Package.missing_publisher_message localize) /\
  (truthy_opt (Package._publisher p) = true -> Package.state p = Invalid ->
   Package.errorMessage localize p = Package.missing_vsix_message localize).
Proof.
  unfold Package.errorMessage. split; [|split].
  - intros Hvalid.
    destruct (truthy_opt (Package._publisher p)) eqn:E1;
      destruct (truthy_opt (Package.vsixFile p)) eqn:E2; try reflexivity;
      exfalso; apply Hvalid; apply state_Invalid_iff; auto.
  - now intros ->.
  - intros Hpub Hinvalid. rewrite Hpub. apply state_Invalid_iff in Hinvalid.
    destruct Hinvalid as [H | H]; [congruence | now rewrite H].
Qed.

(** X17: the optional texts default to the name: a manifest without a
    [displayName] string gives a package displayed (and printed by
    [toString]) under its name, and one without a [description] string gets
    the name as description; a string that is present is taken as it is. *)
Theorem texts_default_to_name
  (host : Host) (registry : Registry) (manifest : Manifest) (p : Pkg) :
  new host registry manifest = inr p ->
  get manifest "name" = VString (Package.name p) /\
  (forall s, get manifest "displayName" = VString s ->
             Package.displayName p = s /\ Package.toString p = s) /\
  ((forall s, get manifest "displayName" <> VString s) ->
   Package.displayName p = Package.name p /\ Package.toString p = Package.name p) /\
  (forall s, get manifest "description" = VString s -> Package.description p = s) /\
  ((forall s, get manifest "description" <> VString s) ->
   Package.description p = Package.name p).
Proof.
  intros Hnew. invert_constructor Hnew n. unfold Package.toString.
  cbn [Package.name Package.displayName Package.description].
  apply as_string_Some in Ename.
  split; [assumption | split; [|split; [|split]]].
  - intros s ->. now split.
  - intros H. apply as_string_None in H. rewrite H. now split.
  - intros s ->. reflexivity.
  - intros H. apply as_string_None in H. now rewrite H.
Qed.

(** X18: the package specifier of a manifest whose version is missing, is
    not a string or is rejected by [parse] is the name followed by
    [@0.0.0]. *)
Theorem spec_of_unversioned_manifest
  (host : Host) (registry : Registry) (manifest : Manifest) (p : Pkg) :
  new host registry manifest = inr p ->
  (forall s, get manifest "version" = VString s -> parseVersion s = None) ->
  Package.spec p = Package.name p ++ "@0.0.0".
Proof.
  intros Hnew Hversion. invert_constructor Hnew n. unfold Package.spec.
  cbn [Package.name Package.version].
  destruct (get manifest "version") as [| | | | s | |] eqn:E; try reflexivity.
  cbn [Package.as_string]. now rewrite (Hversion s eq_refl).
Qed.

(** X19: without a remote, [InstalledRemote] comes from live data only: a
    package constructed while no remote is active is classified UI, and after
    a refresh its state is [InstalledRemote] only if the lookup reported the
    workspace kind. *)
Theorem local_package_is_remote_only_by_lookup
  (host : Host) (registry : Registry) (manifest : Manifest) (p : Pkg)
  (e : option ExtensionInfo.t) :
  remoteName host = None ->
  new host registry manifest = inr p ->
  Package.isUiExtension p = true /\
  (Package.state (Package.updateState p e) = InstalledRemote ->
   exists info, e = Some info /\ ExtensionInfo.extensionKind info = Some Workspace).
Proof.
  intros Hlocal Hnew.
  assert (Hhint : Package._isUiExtension p = true).
  { invert_constructor Hnew n. cbn [Package._isUiExtension].
    unfold isUiExtension. now rewrite Hlocal. }
  assert (Hfresh : Package._installedExtensionKind p = None).
  { invert_constructor Hnew n. reflexivity. }
  split.
  - unfold Package.isUiExtension. now rewrite Hfresh.
  - unfold Package.state.
    destruct (truthy_opt _ && truthy_opt _); [|discriminate].
    destruct (Package.isUpdateAvailable _); [discriminate|].
    destruct e as [info|]; cbn [Package.updateState Package.isInstalled Package._isInstalled];
      [|discriminate].
    unfold Package.isUiExtension.
    cbn [Package._installedExtensionKind Package._isUiExtension].
    destruct (ExtensionInfo.extensionKind info) as [[|]|] eqn:Ekind; simpl.
    + discriminate.
    + intros _. now exists info.
    + rewrite Hhint. discriminate.
Qed.

Section ContentsFacts.

Variable join : string -> string -> string.
Variable glob : string -> string -> list string.
Variable downloadPackage : Registry -> Pkg -> Uri.

Local Abbreviation getContents := (@Package.getContents Registry join glob downloadPackage).

(** X20: [getContents] gives a [.vsix] location for every package that is
    not [Invalid], and for a constructed package the location is the file
    [findVsixFile] found, joined to the download directory; it is [null]
    exactly when the manifest has no [.vsix] entry. *)
Theorem getContents_vsix
  (host : Host) (registry : Registry) (manifest : Manifest) (p : Pkg) :
  new host registry manifest = inr p ->
  (forall file, findVsixFile manifest = Some file ->
     Package.vsix (getContents p)
     = Some (Uri_file (join (fsPath (downloadPackage registry p)) file))) /\
  (Package.vsix (getContents p) = None <-> no_vsix_entry manifest) /\
  (Package.state p <> Invalid -> Package.vsix (getContents p) <> None).
Proof.
  intros Hnew.
  assert (Hfile : Package.vsixFile p = findVsixFile manifest /\
                  Package.registry p = registry).
  { invert_constructor Hnew n. now split. }
  destruct Hfile as [Hfile Hregistry].
  unfold Package.getContents. cbn [Package.vsix]. rewrite Hfile, Hregistry.
  assert (Hfound : forall file, findVsixFile manifest = Some file ->
                                truthy_string file = true).
  { intros file H. destruct (findVsixFile_is_first manifest file H)
      as (_ & _ & _ & Hends & _ & _). now apply endsWith_vsix_truthy. }
  split; [|split].
  - intros file H. rewrite H, (Hfound file H). reflexivity.
  - rewrite <- findVsixFile_null_iff.
    destruct (findVsixFile manifest) as [file|] eqn:E; [|now split].
    rewrite (Hfound file eq_refl). split; discriminate.
  - intros Hvalid Hnone. apply Hvalid. apply state_Invalid_iff. right.
    rewrite Hfile. destruct (findVsixFile manifest) as [file|] eqn:E; [|reflexivity].
    rewrite (Hfound file eq_refl) in Hnone. discriminate Hnone.
Qed.

End ContentsFacts.

End RefreshFacts.

(** ** The further facts at concrete inputs *)

(** Display names [ReadMe] and [README]; [readme] and [readmes] differ. *)
Lemma compare_zero_iff_witness :
  is_ascii "ReadMe" = true /\ is_ascii "README" = true /\
  differ_only_in_case "ReadMe" "README" = true /\
  Package.compare (Samples.tool "ReadMe" Semver.zero) (Samples.tool "README" Semver.zero)
  = 0%Z /\
  Package.compare (Samples.tool "readme" Semver.zero) (Samples.tool "readmes" Semver.zero)
  <> 0%Z.
Proof.
  split; [reflexivity | split; [reflexivity | split; [reflexivity|]]].
  split.
  - apply (compare_zero_iff (Samples.tool "ReadMe" Semver.zero)
             (Samples.tool "README" Semver.zero) eq_refl eq_refl).
    reflexivity.
  - intros H.
    apply (compare_zero_iff (Samples.tool "readme" Semver.zero)
             (Samples.tool "readmes" Semver.zero) eq_refl eq_refl) in H.
    discriminate H.
Defined.

(** Display names [alpha], [Beta] and [gamma]. *)
Lemma compare_transitive_witness :
  (Package.compare (Samples.tool "alpha" Semver.zero) (Samples.tool "Beta" Semver.zero) <= 0)%Z /\
  (Package.compare (Samples.tool "Beta" Semver.zero) (Samples.tool "gamma" Semver.zero) <= 0)%Z /\
  (Package.compare (Samples.tool "alpha" Semver.zero) (Samples.tool "gamma" Semver.zero) <= 0)%Z.
Proof.
  assert (H1 : (Package.compare (Samples.tool "alpha" Semver.zero)
                  (Samples.tool "Beta" Semver.zero) <= 0)%Z) by (vm_compute; discriminate).
  assert (H2 : (Package.compare (Samples.tool "Beta" Semver.zero)
                  (Samples.tool "gamma" Semver.zero) <= 0)%Z) by (vm_compute; discriminate).
  split; [exact H1 | split; [exact H2|]].
  exact (compare_transitive _ _ _ H1 H2).
Defined.

(** The first of two [.vsix] entries is found. *)
Lemma findVsixFile_is_first_witness :
  findVsixFile Samples.two_vsix_manifest = Some "first.vsix" /\
  exists before after,
    get Samples.two_vsix_manifest "files" = VArray (before ++ VString "first.vsix" :: after)%list /\
    endsWith "first.vsix" ".vsix" = true /\
    "first.vsix" <> "" /\
    forall s, In (VString s) before -> endsWith s ".vsix" = false.
Proof.
  split; [reflexivity|].
  exact (findVsixFile_is_first Samples.two_vsix_manifest "first.vsix" eq_refl).
Defined.

(** A setting for another extension, and a manifest that declares [ui]. *)
Lemma getExtensionKind_falls_back_to_manifest_witness :
  getExtensionKind (Samples.remote_host [("Other.Tool", "workspace")]) "acme.tool"
    Samples.ui_manifest = Some "ui".
Proof.
  apply (getExtensionKind_falls_back_to_manifest
           (Samples.remote_host [("Other.Tool", "workspace")]) "acme.tool"
           Samples.ui_manifest).
  - intros key [<- | []]. vm_compute. discriminate.
  - reflexivity.
Defined.

(** The kind [web] on a manifest without entry point or dependencies. *)
Lemma unknown_kind_uses_heuristics_witness :
  getExtensionKind (Samples.remote_host []) "acme.tool" Samples.web_manifest = Some "web" /\
  isUiExtension (Samples.remote_host []) "acme.tool" Samples.web_manifest = true.
Proof.
  split; [reflexivity|].
  apply (unknown_kind_uses_heuristics (Samples.remote_host []) "acme.tool"
           Samples.web_manifest "ssh-remote" "web" eq_refl eq_refl).
  - discriminate.
  - discriminate.
  - split; [reflexivity|].
    split; intros (x & rest & H); vm_compute in H; discriminate H.
Defined.

Lemma fresh_package_is_not_installed_witness :
  exists p : @Package.t unit,
    Package.new Samples.parse Samples.localize Samples.local_host tt
      (Samples.manifest "Acme" "Tool" "1.2.3") = inr p /\
    Package.isInstalled p = false /\
    Package.isUpdateAvailable p = false.
Proof.
  eexists. split; [reflexivity|].
  destruct (fresh_package_is_not_installed Samples.parse Samples.localize
              Samples.local_host tt (Samples.manifest "Acme" "Tool" "1.2.3") _ eq_refl)
    as (Hinstalled & _ & Hupdate & _).
  split; [exact Hinstalled | exact Hupdate].
Defined.

Lemma snapshot_is_consistent_witness :
  exists p : @Package.t unit,
    Package.new Samples.parse Samples.localize Samples.local_host tt
      (Samples.manifest "Acme" "Tool" "9.0.0") = inr p /\
    Package.state
      (Package.refreshes p [None; Samples.installed UI (Samples.v 1 2 3)]) = UpdateAvailable /\
    Package.isInstalled
      (Package.refreshes p [None; Samples.installed UI (Samples.v 1 2 3)]) = true.
Proof.
  eexists. split; [reflexivity|]. split; [reflexivity|].
  apply (snapshot_is_consistent Samples.parse Samples.localize Samples.local_host tt
           (Samples.manifest "Acme" "Tool" "9.0.0") _
           [None; Samples.installed UI (Samples.v 1 2 3)] eq_refl).
  reflexivity.
Defined.

Lemma refreshes_keep_identity_witness :
  exists p : @Package.t unit,
    Package.new Samples.parse Samples.localize Samples.local_host tt
      (Samples.manifest "Acme" "Tool" "1.2.3") = inr p /\
    Package.extensionId
      (Package.refreshes p [Samples.installed Workspace (Samples.v 9 0 0); None])
    = Package.extensionId p.
Proof.
  eexists. split; [reflexivity|].
  apply (refreshes_keep_identity Samples.parse Samples.localize Samples.local_host tt
           (Samples.manifest "Acme" "Tool" "1.2.3") _
           [Samples.installed Workspace (Samples.v 9 0 0); None] eq_refl).
Defined.

Lemma available_iff_not_found_witness :
  Package.state (Samples.tool "Tool" (Samples.v 1 2 3)) <> Invalid /\
  Package.state (Package.updateState (Samples.tool "Tool" (Samples.v 1 2 3)) None) = Available.
Proof.
  assert (H : Package.state (Samples.tool "Tool" (Samples.v 1 2 3)) <> Invalid)
    by (vm_compute; discriminate).
  split; [exact H|].
  apply (available_iff_not_found (Samples.tool "Tool" (Samples.v 1 2 3)) None H).
  reflexivity.
Defined.

(** Build metadata is not part of the spelling: 1.2.3 against 1.2.3+nightly,
    installed on the workspace host. *)
Lemma same_version_state_follows_live_kind_witness :
  Package.state
    (Package.updateState (Samples.tool "Tool" (Samples.v 1 2 3))
       (Some {| ExtensionInfo.extensionKind := Some Workspace;
                ExtensionInfo.version :=
                  Some (mkSemVer 1 2 3 [] ["nightly"]) |}))
  = InstalledRemote.
Proof.
  apply (same_version_state_follows_live_kind (Samples.tool "Tool" (Samples.v 1 2 3))
           (Some Workspace) (mkSemVer 1 2 3 [] ["nightly"])).
  - vm_compute. discriminate.
  - reflexivity.
Defined.

Lemma update_is_one_way_witness :
  Package.isUpdateAvailable
    (Package.updateState (Samples.tool "Tool" (Samples.v 1 2 3))
       (Samples.installed UI (Samples.v 1 2 4))) = false.
Proof.
  apply (update_is_one_way
           (Package.updateState (Samples.tool "Tool" (Samples.v 1 2 4))
              (Samples.installed UI (Samples.v 1 2 3)))
           (Package.updateState (Samples.tool "Tool" (Samples.v 1 2 3))
              (Samples.installed UI (Samples.v 1 2 4)))
           (Samples.v 1 2 3)); reflexivity.
Defined.

Lemma Invalid_iff_manifest_witness :
  exists p : @Package.t unit,
    Package.new Samples.parse Samples.localize Samples.local_host tt
      (Samples.manifest "Acme" "Tool" "1.2.3") = inr p /\
    ~ ((forall publisher,
          get (Samples.manifest "Acme" "Tool" "1.2.3") "publisher" = VString publisher ->
          publisher = "")
       \/ no_vsix_entry (Samples.manifest "Acme" "Tool" "1.2.3")).
Proof.
  eexists. split; [reflexivity|].
  intros H.
  apply (Invalid_iff_manifest Samples.parse Samples.localize Samples.local_host tt
           (Samples.manifest "Acme" "Tool" "1.2.3") _
           [Samples.installed UI (Samples.v 1 2 3)] eq_refl) in H.
  vm_compute in H. discriminate H.
Defined.

Lemma texts_default_to_name_witness :
  exists p : @Package.t unit,
    Package.new Samples.parse Samples.localize Samples.local_host tt
      (Samples.bare_manifest "Tool") = inr p /\
    Package.displayName p = Package.name p /\
    Package.description p = Package.name p.
Proof.
  eexists. split; [reflexivity|].
  destruct (texts_default_to_name Samples.parse Samples.localize Samples.local_host tt
              (Samples.bare_manifest "Tool") _ eq_refl)
    as (_ & _ & Hdisplay & _ & Hdescription).
  split.
  - apply Hdisplay. intros s H. vm_compute in H. discriminate H.
  - apply Hdescription. intros s H. vm_compute in H. discriminate H.
Defined.

Lemma spec_of_unversioned_manifest_witness :
  exists p : @Package.t unit,
    Package.new Samples.parse Samples.localize Samples.local_host tt
      (Samples.manifest "Acme" "Tool" "latest") = inr p /\
    Package.spec p = "Tool@0.0.0".
Proof.
  eexists. split; [reflexivity|].
  apply (spec_of_unversioned_manifest Samples.parse Samples.localize Samples.local_host tt
           (Samples.manifest "Acme" "Tool" "latest") _ eq_refl).
  intros s H. vm_compute in H. injection H as <-. reflexivity.
Defined.

Lemma local_package_is_remote_only_by_lookup_witness :
  exists p : @Package.t unit,
    remoteName Samples.local_host = None /\
    Package.new Samples.parse Samples.localize Samples.local_host tt
      (Samples.main_manifest) = inr p /\
    Package.isUiExtension p = true.
Proof.
  eexists. split; [reflexivity | split; [reflexivity|]].
  apply (local_package_is_remote_only_by_lookup Samples.parse Samples.localize
           Samples.local_host tt Samples.main_manifest _ None eq_refl eq_refl).
Defined.

Lemma getContents_vsix_witness :
  exists p : @Package.t unit,
    Package.new Samples.parse Samples.localize Samples.local_host tt
      Samples.two_vsix_manifest = inr p /\
    Package.vsix (Package.getContents Samples.join Samples.glob Samples.downloadPackage p)
    = Some (Uri_file "/downloads/Tool/first.vsix").
Proof.
  eexists. split; [reflexivity|].
  destruct (getContents_vsix Samples.parse Samples.localize
              Samples.join Samples.glob Samples.downloadPackage
              Samples.local_host tt Samples.two_vsix_manifest _ eq_refl) as [Hfile _].
  exact (Hfile "first.vsix" eq_refl).
Defined.
